(** * vite-minify-static-plugin: shallow embedding and verification

    The repository holds two drafts of one Vite plugin:
    - [src/index.ts], which minifies with esbuild's [transformSync]
      (module [Esbuild] below);
    - a second draft, which minifies with terser's [minify] and guards the
      replacement of an existing destination with [safeUnlink]
      (module [Terser] below).
    [detectFramework], [getDefaultSourceDir] and [shouldProcessBundle] are
    textually identical in both drafts and are embedded once.

    Layout: the JavaScript values and objects the code handles, the parts of
    node:path, node:fs and console it calls, the two drafts, and then the
    theorems. *)

From Stdlib Require Import ZArith Lia Ascii.
From stdpp Require Import gmap strings list fin_maps.

Local Open Scope Z_scope.

(* ===================================================================== *)
(** * JavaScript values, truthiness, object properties *)
(* ===================================================================== *)

(** A JSON-like value: what sits under a key of [package.json]'s dependency
    tables and of the option bags handed to the minifier. *)
Inductive JsValue : Type :=
  | JUndefined
  | JBool (b : bool)
  | JString (s : string)
  | JObject (fields : JsFields)
with JsFields : Type :=
  | JNil
  | JField (key : string) (v : JsValue) (rest : JsFields).

(** JavaScript truthiness ([if (v)], [v || d], [!v]). *)
Definition truthy (v : JsValue) : bool :=
  match v with
  | JUndefined => false
  | JBool b => b
  | JString s => negb (String.eqb s "")
  | JObject _ => true
  end.

(** A possibly-[undefined] string / boolean read from an object; [None] is
    [undefined]. *)
Definition truthy_string (v : option string) : bool :=
  match v with
  | Some s => negb (String.eqb s "")
  | None => false
  end.

Definition truthy_bool (v : option bool) : bool :=
  match v with
  | Some b => b
  | None => false
  end.

(** [a || d] on a possibly-undefined string. *)
Definition or_string (a : option string) (d : string) : string :=
  match a with
  | Some s => if String.eqb s "" then d else s
  | None => d
  end.

(** An object with string keys: own enumerable properties.  A key may be
    present and hold [JUndefined]. *)
Abbreviation JsObject := (gmap string JsValue).

(** [obj[k]]: [undefined] when the key is missing. *)
Definition js_get (obj : JsObject) (k : string) : JsValue :=
  default JUndefined (obj !! k).

(** [{...a, ...b}]: every own key of [b] wins over [a]'s. *)
Definition js_spread (a b : JsObject) : JsObject := b ∪ a.

(** [{...a, ...b}] where [a], [b] may be [undefined] (spreading [undefined]
    copies nothing). *)
Definition js_spread_opt (a b : option JsObject) : JsObject :=
  js_spread (default ∅ a) (default ∅ b).

(** One property of an object literal of known shape: the key is missing, or
    it is present with a value that may be [undefined]
    ([{ sourceDir: undefined }] has the key). *)
Inductive Property (A : Type) : Type :=
  | Absent
  | Present (v : option A).
Arguments Absent {A}.
Arguments Present {A} v.

(** [obj.key]. *)
Definition read {A} (p : Property A) : option A :=
  match p with
  | Absent => None
  | Present v => v
  end.

(** The property [key] of [{...a, ...b}]. *)
Definition over {A} (a b : Property A) : Property A :=
  match b with
  | Absent => a
  | Present _ => b
  end.

(** [String.prototype.includes]: [needle] occurs somewhere in [hay]. *)
Fixpoint includes (hay needle : string) : bool :=
  if String.prefix needle hay then true
  else match hay with
       | EmptyString => false
       | String _ rest => includes rest needle
       end.

(** What "contains the substring" means, independently of the scan above. *)
Definition contains (hay needle : string) : Prop :=
  ∃ pre post : string, hay = pre +:+ needle +:+ post.

(** A thrown JavaScript value, by origin. *)
Inductive Exn : Type :=
  | TypeError (what : string)
  | ENOENT (path : string)
  | EISDIR (path : string)
  | ENOTDIR (path : string)
  | EEXIST (path : string)
  | External (what : string).

(** The completion of an expression: a value or a throw. *)
Inductive Completion (A : Type) : Type :=
  | Returned (a : A)
  | Thrown (e : Exn).
Arguments Returned {A} a.
Arguments Thrown {A} e.

(* ===================================================================== *)
(** * Framework detection and the bundle filter (both drafts) *)
(* ===================================================================== *)

(** The union ['sveltekit' | 'react' | 'vue' | 'vanilla' | 'auto'] of the
    [framework] option. *)
Inductive Framework : Type := sveltekit | react | vue | vanilla | auto.

#[global] Instance Framework_eq_dec : EqDecision Framework.
Proof. solve_decision. Defined.

(** The string a [Framework] is at run time. *)
Definition framework_name (f : Framework) : string :=
  match f with
  | sveltekit => "sveltekit"
  | react => "react"
  | vue => "vue"
  | vanilla => "vanilla"
  | auto => "auto"
  end.

(** The parts of a parsed [package.json] the detector looks at.  A table
    that is missing is [None]. *)
Record PackageJson : Type := {
  dependencies : option JsObject;
  devDependencies : option JsObject
}.

(** [detectFramework].  The argument is the completion of
    [JSON.parse(readFileSync('package.json', 'utf-8'))]: a throw there (no
    file, not JSON, [null]) lands in the [catch]. *)
Definition detectFramework (packageJson : Completion PackageJson) : Framework :=
  match packageJson with
  | Returned packageJson =>
      let deps := js_spread_opt (dependencies packageJson) (devDependencies packageJson) in
      if truthy (js_get deps "@sveltejs/kit") then sveltekit
      else if truthy (js_get deps "react") || truthy (js_get deps "@vitejs/plugin-react") then react
      else if truthy (js_get deps "vue") || truthy (js_get deps "@vitejs/plugin-vue") then vue
      else vanilla
  | Thrown _ => vanilla
  end.

(** [getDefaultSourceDir(framework: string)]. *)
Definition getDefaultSourceDir (framework : string) : string :=
  if String.eqb framework "sveltekit" then "static"
  else "public".

(** The build output descriptor handed to [writeBundle]; only [dir] is
    read. *)
Record BundleOptions : Type := { dir : option string }.

(** [shouldProcessBundle(bundleOptions, framework: string)]. *)
Definition shouldProcessBundle (bundleOptions : BundleOptions) (framework : string) : bool :=
  let dir := or_string (dir bundleOptions) "" in
  if String.eqb framework "sveltekit" then includes dir "client"
  else negb (includes dir "server") && negb (includes dir "ssr").

(* ===================================================================== *)
(** * node:path (POSIX flavour) *)
(* ===================================================================== *)

Module Path.

Definition slash : ascii := "/"%char.
Definition dot : ascii := "."%char.

Definition is_slash (c : ascii) : bool := bool_decide (c = slash).

(** The pieces of [s] between slashes (["/a//b"] gives [""; "a"; ""; "b"]). *)
Fixpoint split (s : string) : list string :=
  match s with
  | EmptyString => [EmptyString]
  | String c rest =>
      if is_slash c then EmptyString :: split rest
      else match split rest with
           | h :: t => String c h :: t
           | [] => [String c EmptyString]
           end
  end.

Fixpoint concat_with (sep : string) (parts : list string) : string :=
  match parts with
  | [] => ""
  | [p] => p
  | p :: ps => p +:+ sep +:+ concat_with sep ps
  end.

(** One step of node's [normalizeString]; the segments kept so far are held
    last-first. *)
Definition normalize_step (allowAboveRoot : bool) (kept : list string) (seg : string)
  : list string :=
  if String.eqb seg "" || String.eqb seg "." then kept
  else if String.eqb seg ".." then
    match kept with
    | top :: below =>
        if String.eqb top ".." then seg :: kept else below
    | [] => if allowAboveRoot then [seg] else []
    end
  else seg :: kept.

Definition starts_with_slash (s : string) : bool :=
  match s with
  | String c _ => is_slash c
  | EmptyString => false
  end.

Definition ends_with_slash (s : string) : bool :=
  starts_with_slash (String.rev s).

(** [path.normalize]. *)
Definition normalize (path : string) : string :=
  if String.eqb path "" then "."
  else
    let isAbsolute := starts_with_slash path in
    let trailingSeparator := ends_with_slash path in
    let body :=
      concat_with "/" (rev (fold_left (normalize_step (negb isAbsolute)) (split path) [])) in
    if String.eqb body "" then
      if isAbsolute then "/" else if trailingSeparator then "./" else "."
    else
      let body := if trailingSeparator then body +:+ "/" else body in
      if isAbsolute then "/" +:+ body else body.

(** [path.join(...args)] on string arguments. *)
Definition join (args : list string) : string :=
  match filter (λ a, a ≠ "") args with
  | [] => "."
  | parts => normalize (concat_with "/" parts)
  end.

(** [path.join] as JavaScript calls it: an argument that is not a string
    ([undefined] here) makes it throw a [TypeError]. *)
Definition join_checked (args : list (option string)) : Completion string :=
  match mapM id args with
  | Some strings => Returned (join strings)
  | None => Thrown (TypeError "The path argument must be of type string")
  end.

Fixpoint drop_while (p : ascii → bool) (s : string) : string :=
  match s with
  | EmptyString => EmptyString
  | String c rest => if p c then drop_while p rest else s
  end.

(** [path.dirname]: drop trailing slashes and the last component; the first
    character is never dropped. *)
Definition dirname (path : string) : string :=
  match path with
  | EmptyString => "."
  | String first rest =>
      let hasRoot := is_slash first in
      let scanned :=
        drop_while (λ c, negb (is_slash c)) (drop_while is_slash (String.rev rest)) in
      match scanned with
      | EmptyString => if hasRoot then "/" else "."
      | String _ before =>
          if hasRoot && String.eqb before "" then "//"
          else String first (String.rev before)
      end
  end.

(** The last component of a path, trailing slashes ignored, held
    last-character-first. *)
Fixpoint take_until_slash (s : string) : string :=
  match s with
  | EmptyString => EmptyString
  | String c rest => if is_slash c then EmptyString else String c (take_until_slash rest)
  end.

(** The characters after the last dot of a reversed name, themselves
    reversed back, with what stands before that dot; [None] without a
    dot. *)
Fixpoint split_last_dot (reversed_name : string) (after : string) : option (string * string) :=
  match reversed_name with
  | EmptyString => None
  | String c rest =>
      if bool_decide (c = dot) then Some (rest, after)
      else split_last_dot rest (String c after)
  end.

(** [path.extname]: from the last dot of the last component, empty when
    there is no dot, when the component starts with its only dot, or when
    it is [".."]. *)
Definition extname (path : string) : string :=
  let reversed_name := take_until_slash (drop_while is_slash (String.rev path)) in
  match split_last_dot reversed_name "" with
  | None => ""
  | Some (before, after) =>
      if String.eqb before "" then ""
      else if String.eqb reversed_name ".." then ""
      else String dot after
  end.

End Path.

(** [String.prototype.toLowerCase] on the ASCII letters. *)
Definition lower_ascii (c : ascii) : ascii :=
  let n := nat_of_ascii c in
  if (65 <=? n)%nat && (n <=? 90)%nat then ascii_of_nat (n + 32) else c.

Fixpoint toLowerCase (s : string) : string :=
  match s with
  | EmptyString => EmptyString
  | String c rest => String (lower_ascii c) (toLowerCase rest)
  end.

(* ===================================================================== *)
(** * The world of one hook call: file system, console, mutable locals *)
(* ===================================================================== *)

(** What a path names on disk: a regular file or a directory.  Symbolic
    links and permissions are outside this disk. *)
Inductive Node : Type :=
  | File (content : string)
  | Directory.

Definition isFile (stats : Node) : bool :=
  match stats with
  | File _ => true
  | Directory => false
  end.

Inductive Level : Type := Log | Warn | Error.

(** The console lines of the two drafts, with the values their template
    strings interpolate (the rendering of numbers and pictographs is left
    out). *)
Inductive Message : Type :=
  | SkippingBundle (bundleDir : option string) (framework : string)
  | NoOutputDirectory
  | LookingForStaticFiles (sourceDir : option string) (framework : string)
  | NoStaticFilesFound
  | SourceFileNotFound (sourcePath : string)
  | TerserReturnedEmptyResult (file : string)
  | CannotUnlinkDirectory (filePath : string)
  | FailedToUnlink (filePath : string) (error : Exn)
  | CouldNotReplace (outputPath : string)
  | MinifiedFile (file : string) (originalSize minifiedSize : Z)
  | ErrorMinifying (file : string) (error : Exn)
  | MinifiedSummary (minifiedCount : nat) (totalSavings : option Z)
  | PluginError (error : Exn).

(** The state a hook call runs in: the disk, the console output so far
    (oldest first), and the two counters [writeBundle] declares with [let]. *)
Record State : Type := {
  fs : gmap string Node;
  console : list (Level * Message);
  minifiedCount : nat;
  totalSavings : Z
}.

Definition with_fs (s : State) (fs' : gmap string Node) : State :=
  {| fs := fs'; console := console s;
     minifiedCount := minifiedCount s; totalSavings := totalSavings s |}.

(** How one iteration of the per-file loop ended.  The code keeps no such
    value; the embedding returns it from each iteration so that theorems can
    speak about files that were written. *)
Inductive FileTransformResult : Type :=
  | Success (original minified : string)
  | SkippedMissing
  | SkippedEmptyResult
  | SkippedNotReplaced
  | Failed (error : Exn).

(** Computations that read and change the state and may throw. *)
Definition M (A : Type) : Type := State → Completion A * State.

#[global] Instance M_ret : MRet M := λ A a s, (Returned a, s).

#[global] Instance M_bind : MBind M := λ A B f m s,
  match m s with
  | (Returned a, s') => f a s'
  | (Thrown e, s') => (Thrown e, s')
  end.

(** [try { body } catch (error) { handler }]. *)
Definition try_catch {A} (body : M A) (handler : Exn → M A) : M A := λ s,
  match body s with
  | (Returned a, s') => (Returned a, s')
  | (Thrown e, s') => handler e s'
  end.

(** An expression that neither reads nor changes the state. *)
Definition eval {A} (c : Completion A) : M A := λ s, (c, s).

Definition when (cond : bool) (body : M unit) : M unit :=
  if cond then body else mret ().

(** [for (const x of xs) body]: the iterations run in order; a throw that
    leaves an iteration leaves the loop. *)
Fixpoint for_of {A B} (xs : list A) (body : A → M B) : M (list B) :=
  match xs with
  | [] => mret []
  | x :: rest => r ← body x; rs ← for_of rest body; mret (r :: rs)
  end.

(** ** console *)

Definition console_emit (level : Level) (m : Message) : M unit := λ s,
  (Returned (),
   {| fs := fs s; console := console s ++ [(level, m)];
      minifiedCount := minifiedCount s; totalSavings := totalSavings s |}).

Definition console_log := console_emit Log.
Definition console_warn := console_emit Warn.
Definition console_error := console_emit Error.

(** ** node:fs, on a disk that is a finite map from path to node *)

Definition existsSync (path : string) : M bool := λ s,
  (Returned (bool_decide (is_Some (fs s !! path))), s).

Definition readFileSync (path : string) : M string := λ s,
  match fs s !! path with
  | Some (File content) => (Returned content, s)
  | Some Directory => (Thrown (EISDIR path), s)
  | None => (Thrown (ENOENT path), s)
  end.

Definition statSync (path : string) : M Node := λ s,
  match fs s !! path with
  | Some stats => (Returned stats, s)
  | None => (Thrown (ENOENT path), s)
  end.

(** [unlinkSync] removes a regular file; on a directory it fails.  On this
    disk it has no other way to fail. *)
Definition unlinkSync (path : string) : M unit := λ s,
  match fs s !! path with
  | Some (File _) => (Returned (), with_fs s (delete path (fs s)))
  | Some Directory => (Thrown (EISDIR path), s)
  | None => (Thrown (ENOENT path), s)
  end.

(** [mkdir -p]: every missing directory on the way down to [path] is made; a
    file in the way makes it fail.  [fuel] bounds the climb to the root. *)
Fixpoint mkdir_p (fuel : nat) (disk : gmap string Node) (path : string)
  : Completion (gmap string Node) :=
  match disk !! path with
  | Some Directory => Returned disk
  | Some (File _) => Thrown (EEXIST path)
  | None =>
      match fuel with
      | O => Returned (<[path := Directory]> disk)
      | S fuel' =>
          let parent := Path.dirname path in
          if String.eqb parent path then Returned (<[path := Directory]> disk)
          else match mkdir_p fuel' disk parent with
               | Returned disk' => Returned (<[path := Directory]> disk')
               | Thrown _ => Thrown (ENOTDIR path)
               end
      end
  end.

(** [mkdirSync(path, { recursive: true })]. *)
Definition mkdirSync (path : string) : M unit := λ s,
  match mkdir_p (String.length path) (fs s) path with
  | Returned disk' => (Returned (), with_fs s disk')
  | Thrown e => (Thrown e, s)
  end.

(** [writeFileSync(path, data)]: the parent must be a directory and [path]
    must not be one. *)
Definition writeFileSync (path data : string) : M unit := λ s,
  match fs s !! path with
  | Some Directory => (Thrown (EISDIR path), s)
  | _ =>
      match fs s !! Path.dirname path with
      | Some Directory => (Returned (), with_fs s (<[path := File data]> (fs s)))
      | Some (File _) => (Thrown (ENOTDIR path), s)
      | None => (Thrown (ENOENT path), s)
      end
  end.

(** [Buffer.byteLength(text, 'utf-8')]: strings hold the UTF-8 bytes. *)
Definition byteLength (text : string) : Z := Z.of_nat (String.length text).

(** The two counters. *)
Definition set_counters (count : nat) (savings : Z) : M unit := λ s,
  (Returned (),
   {| fs := fs s; console := console s; minifiedCount := count; totalSavings := savings |}).

Definition increment_minifiedCount : M unit := λ s,
  set_counters (S (minifiedCount s)) (totalSavings s) s.

Definition add_totalSavings (savings : Z) : M unit := λ s,
  set_counters (minifiedCount s) (totalSavings s + savings) s.

Definition get_minifiedCount : M nat := λ s, (Returned (minifiedCount s), s).
Definition get_totalSavings : M Z := λ s, (Returned (totalSavings s), s).

(* ===================================================================== *)
(** * The terser draft *)
(* ===================================================================== *)

Module Terser.

(** [MinifyStaticOptions], and the shape of [defaultOptions] and of the
    resolved [options]: one property per key. *)
Record MinifyStaticOptions : Type := {
  sourceDir : Property string;
  files : Property (list string);
  terserOptions : Property JsObject;
  verbose : Property bool;
  outputDir : Property string;
  framework : Property Framework
}.

(** [{}], what [minifyStatic()] receives. *)
Definition empty_options : MinifyStaticOptions :=
  {| sourceDir := Absent; files := Absent; terserOptions := Absent;
     verbose := Absent; outputDir := Absent; framework := Absent |}.

Definition default_terserOptions : JsObject :=
  {[ "compress" := JBool true;
     "mangle" := JBool true;
     "format" := JObject (JField "comments" (JBool false) JNil) ]}.

Definition defaultOptions : MinifyStaticOptions :=
  {| sourceDir := Present (Some "public");
     files := Present (Some ["**/*.js"; "**/*.mjs"]);
     terserOptions := Present (Some default_terserOptions);
     verbose := Present (Some false);
     framework := Present (Some auto);
     outputDir := Present None |}.

(** [{...a, ...b}]. *)
Definition spread (a b : MinifyStaticOptions) : MinifyStaticOptions :=
  {| sourceDir := over (sourceDir a) (sourceDir b);
     files := over (files a) (files b);
     terserOptions := over (terserOptions a) (terserOptions b);
     verbose := over (verbose a) (verbose b);
     outputDir := over (outputDir a) (outputDir b);
     framework := over (framework a) (framework b) |}.

(** [{...o, sourceDir: v}], [{...o, terserOptions: v}],
    [{...o, framework: v}]. *)
Definition set_sourceDir (v : string) (o : MinifyStaticOptions) : MinifyStaticOptions :=
  {| sourceDir := Present (Some v); files := files o; terserOptions := terserOptions o;
     verbose := verbose o; outputDir := outputDir o; framework := framework o |}.

Definition set_terserOptions (v : JsObject) (o : MinifyStaticOptions) : MinifyStaticOptions :=
  {| sourceDir := sourceDir o; files := files o; terserOptions := Present (Some v);
     verbose := verbose o; outputDir := outputDir o; framework := framework o |}.

Definition set_framework (v : Framework) (o : MinifyStaticOptions) : MinifyStaticOptions :=
  {| sourceDir := sourceDir o; files := files o; terserOptions := terserOptions o;
     verbose := verbose o; outputDir := outputDir o; framework := Present (Some v) |}.

(** [detectedFramework] of [minifyStatic]:
    [userOptions.framework === 'auto' ? detectFramework()
                                      : userOptions.framework || 'vanilla']. *)
Definition detectedFramework (packageJson : Completion PackageJson)
    (userOptions : MinifyStaticOptions) : Framework :=
  match read (framework userOptions) with
  | Some auto => detectFramework packageJson
  | Some given => given
  | None => vanilla
  end.

(** The constant [options] of [minifyStatic]. *)
Definition minifyStatic_options (packageJson : Completion PackageJson)
    (userOptions : MinifyStaticOptions) : MinifyStaticOptions :=
  let detectedFramework := detectedFramework packageJson userOptions in
  set_framework detectedFramework
    (set_terserOptions
       (js_spread_opt (read (terserOptions defaultOptions))
                      (read (terserOptions userOptions)))
       (spread
          (set_sourceDir
             (or_string (read (sourceDir userOptions))
                        (getDefaultSourceDir (framework_name detectedFramework)))
             defaultOptions)
          userOptions)).

(** What terser's [minify] resolves to; [code] may be [undefined]. *)
Record MinifyOutput : Type := { code : option string }.

(** [safeUnlink]. *)
Definition safeUnlink (filePath : string) : M bool :=
  try_catch
    (found ← existsSync filePath;
     if negb found then mret true
     else
       stats ← statSync filePath;
       if isFile stats then
         unlinkSync filePath;; mret true
       else
         console_warn (CannotUnlinkDirectory filePath);; mret false)
    (λ error, console_warn (FailedToUnlink filePath error);; mret false).

Section Hook.

(** What the hook gets from outside the repository: terser's [minify]
    (awaited), fast-glob's [glob.sync] with [onlyFiles], reading the disk
    under [cwd], and [process.cwd()], which throws when the working
    directory is gone. *)
Variable minify : string → option JsObject → Completion MinifyOutput.
Variable glob_sync :
  gmap string Node → option (list string) → string → Completion (list string).
Variable process_cwd : Completion string.

Variable options : MinifyStaticOptions.

(** The constants [sourcePath] and [outputPath] of one iteration. *)
Definition sourcePath (srcDir file : string) : string :=
  Path.join [srcDir; file].

Definition outputPath (outDir file : string) : string :=
  if truthy_string (read (outputDir options))
  then Path.join [outDir; default "" (read (outputDir options)); file]
  else Path.join [outDir; file].

(** The body of the [for] loop over [filesToMinify]. *)
Definition minifyFile (srcDir outDir file : string) : M FileTransformResult :=
  let sourcePath := sourcePath srcDir file in
  let outputPath := outputPath outDir file in
  try_catch
    (found ← existsSync sourcePath;
     if negb found then
       when (truthy_bool (read (verbose options)))
            (console_warn (SourceFileNotFound sourcePath));;
       mret SkippedMissing
     else
       source ← readFileSync sourcePath;
       result ← eval (minify source (read (terserOptions options)));
       if negb (truthy_string (code result)) then
         console_warn (TerserReturnedEmptyResult file);;
         mret SkippedEmptyResult
       else
         let minified := default "" (code result) in
         let outputDirPath := Path.dirname outputPath in
         dirFound ← existsSync outputDirPath;
         when (negb dirFound) (mkdirSync outputDirPath);;
         outFound ← existsSync outputPath;
         replaceable ← (if negb outFound then mret true else safeUnlink outputPath);
         if negb replaceable then
           console_warn (CouldNotReplace outputPath);;
           mret SkippedNotReplaced
         else
           writeFileSync outputPath minified;;
           increment_minifiedCount;;
           when (truthy_bool (read (verbose options)))
                (let originalSize := byteLength source in
                 let minifiedSize := byteLength minified in
                 let savings := originalSize - minifiedSize in
                 add_totalSavings savings;;
                 console_log (MinifiedFile file originalSize minifiedSize));;
           mret (Success source minified))
    (λ error, console_error (ErrorMinifying file error);; mret (Failed error)).

(** The loop itself. *)
Definition minifyFiles (srcDir outDir : string) (filesToMinify : list string)
  : M (list FileTransformResult) :=
  for_of filesToMinify (minifyFile srcDir outDir).

(** The [writeBundle] hook of the plugin object. *)
Definition writeBundle (bundleOptions : BundleOptions) : M unit :=
  let frameworkName := framework_name (default vanilla (read (framework options))) in
  if negb (shouldProcessBundle bundleOptions frameworkName) then
    when (truthy_bool (read (verbose options)))
         (console_log (SkippingBundle (dir bundleOptions) frameworkName))
  else
    cwd ← eval process_cwd;
    srcDir ← eval (Path.join_checked [Some cwd; read (sourceDir options)]);
    if negb (truthy_string (dir bundleOptions)) then
      console_warn NoOutputDirectory
    else
      let outDir := default "" (dir bundleOptions) in
      when (truthy_bool (read (verbose options)))
           (console_log (LookingForStaticFiles (read (sourceDir options)) frameworkName));;
      try_catch
        (filesToMinify ← (λ s, (glob_sync (fs s) (read (files options)) srcDir, s));
         if bool_decide (length filesToMinify = 0%nat) then
           when (truthy_bool (read (verbose options))) (console_log NoStaticFilesFound)
         else
           set_counters 0 0;;
           minifyFiles srcDir outDir filesToMinify;;
           count ← get_minifiedCount;
           when (bool_decide (0 < count)%nat)
                (savings ← get_totalSavings;
                 console_log
                   (MinifiedSummary count
                      (if truthy_bool (read (verbose options)) && bool_decide (0 < savings)
                       then Some savings else None))))
        (λ error, console_error (PluginError error)).

End Hook.

(** The plugin object [minifyStatic] returns: its hook closes over
    [options]. *)
Record Plugin : Type := {
  name : string;
  apply : string;
  plugin_writeBundle : BundleOptions → M unit
}.

Definition minifyStatic minify glob_sync process_cwd
    (packageJson : Completion PackageJson) (userOptions : MinifyStaticOptions) : Plugin :=
  let options := minifyStatic_options packageJson userOptions in
  {| name := "vite-minify-static-plugin";
     apply := "build";
     plugin_writeBundle := writeBundle minify glob_sync process_cwd options |}.

End Terser.

(* ===================================================================== *)
(** * The esbuild draft, [src/index.ts] *)
(* ===================================================================== *)

Module Esbuild.

Record MinifyStaticOptions : Type := {
  sourceDir : Property string;
  files : Property (list string);
  esBuildOptions : Property JsObject;
  verbose : Property bool;
  outputDir : Property string;
  framework : Property Framework
}.

Definition empty_options : MinifyStaticOptions :=
  {| sourceDir := Absent; files := Absent; esBuildOptions := Absent;
     verbose := Absent; outputDir := Absent; framework := Absent |}.

Definition default_esBuildOptions : JsObject :=
  {[ "target" := JString "es2020";
     "minify" := JBool true;
     "format" := JString "iife";
     "loader" := JString "js" ]}.

Definition defaultOptions : MinifyStaticOptions :=
  {| sourceDir := Present (Some "public");
     files := Present (Some ["**/*.js"; "**/*.mjs"]);
     esBuildOptions := Present (Some default_esBuildOptions);
     verbose := Present (Some false);
     framework := Present (Some auto);
     outputDir := Present None |}.

Definition spread (a b : MinifyStaticOptions) : MinifyStaticOptions :=
  {| sourceDir := over (sourceDir a) (sourceDir b);
     files := over (files a) (files b);
     esBuildOptions := over (esBuildOptions a) (esBuildOptions b);
     verbose := over (verbose a) (verbose b);
     outputDir := over (outputDir a) (outputDir b);
     framework := over (framework a) (framework b) |}.

Definition set_sourceDir (v : string) (o : MinifyStaticOptions) : MinifyStaticOptions :=
  {| sourceDir := Present (Some v); files := files o; esBuildOptions := esBuildOptions o;
     verbose := verbose o; outputDir := outputDir o; framework := framework o |}.

Definition set_framework (v : Framework) (o : MinifyStaticOptions) : MinifyStaticOptions :=
  {| sourceDir := sourceDir o; files := files o; esBuildOptions := esBuildOptions o;
     verbose := verbose o; outputDir := outputDir o; framework := Present (Some v) |}.

Definition detectedFramework (packageJson : Completion PackageJson)
    (userOptions : MinifyStaticOptions) : Framework :=
  match read (framework userOptions) with
  | Some auto => detectFramework packageJson
  | Some given => given
  | None => vanilla
  end.

(** The constant [options] of [minifyStatic]: here the option bag of the
    minifier is not merged key by key. *)
Definition minifyStatic_options (packageJson : Completion PackageJson)
    (userOptions : MinifyStaticOptions) : MinifyStaticOptions :=
  let detectedFramework := detectedFramework packageJson userOptions in
  set_framework detectedFramework
    (spread
       (set_sourceDir
          (or_string (read (sourceDir userOptions))
                     (getDefaultSourceDir (framework_name detectedFramework)))
          defaultOptions)
       userOptions).

(** What esbuild's [transformSync] returns. *)
Record TransformResult : Type := { code : string }.

(** [a || 'js'] on a value. *)
Definition or_js (a : JsValue) : JsValue :=
  if truthy a then a else JString "js".

Section Hook.

(** From outside the repository: esbuild's [transformSync], fast-glob's
    [glob.sync] and [process.cwd()], which throws when the working
    directory is gone. *)
Variable transformSync : string → JsObject → Completion TransformResult.
Variable glob_sync :
  gmap string Node → option (list string) → string → Completion (list string).
Variable process_cwd : Completion string.

Variable options : MinifyStaticOptions.

(** [options.esBuildOptions.loader || 'js'], then the choice by
    extension; reading [.loader] of [undefined] throws. *)
Definition chooseLoader (file : string) : Completion JsValue :=
  let ext := toLowerCase (Path.extname file) in
  match read (esBuildOptions options) with
  | None => Thrown (TypeError "Cannot read properties of undefined (reading 'loader')")
  | Some bag =>
      let loader := or_js (js_get bag "loader") in
      Returned
        (if String.eqb ext ".ts" then JString "ts"
         else if String.eqb ext ".jsx" then JString "jsx"
         else if String.eqb ext ".tsx" then JString "tsx"
         else loader)
  end.

(** [require('fs').mkDirSync(...)]: node:fs has no [mkDirSync], so the
    call throws before anything is made. *)
Definition mkDirSync (path : string) : M unit :=
  eval (Thrown (TypeError "require(...).mkDirSync is not a function")).

(** The constants [sourcePath] and [outputPath] of one iteration. *)
Definition sourcePath (srcDir file : string) : string :=
  Path.join [srcDir; file].

Definition outputPath (outDir file : string) : string :=
  if truthy_string (read (outputDir options))
  then Path.join [outDir; default "" (read (outputDir options)); file]
  else Path.join [outDir; file].

(** The body of the [for] loop over [filesToMinify]. *)
Definition minifyFile (srcDir outDir file : string) : M FileTransformResult :=
  let sourcePath := sourcePath srcDir file in
  let outputPath := outputPath outDir file in
  try_catch
    (found ← existsSync sourcePath;
     if negb found then
       when (truthy_bool (read (verbose options)))
            (console_warn (SourceFileNotFound sourcePath));;
       mret SkippedMissing
     else
       source ← readFileSync sourcePath;
       loader ← eval (chooseLoader file);
       result ← eval (transformSync source
                        (<["loader" := loader]> (default ∅ (read (esBuildOptions options)))));
       let outputDirPath := Path.dirname outputPath in
       dirFound ← existsSync outputDirPath;
       when (negb dirFound) (mkDirSync outputDirPath);;
       outFound ← existsSync outputPath;
       when outFound (unlinkSync outputDirPath);;
       writeFileSync outputPath (code result);;
       increment_minifiedCount;;
       when (truthy_bool (read (verbose options)))
            (let originalSize := byteLength source in
             let minifiedSize := byteLength (code result) in
             let savings := originalSize - minifiedSize in
             add_totalSavings savings;;
             console_log (MinifiedFile file originalSize minifiedSize));;
       mret (Success source (code result)))
    (λ error, console_error (ErrorMinifying file error);; mret (Failed error)).

Definition minifyFiles (srcDir outDir : string) (filesToMinify : list string)
  : M (list FileTransformResult) :=
  for_of filesToMinify (minifyFile srcDir outDir).

(** The [writeBundle] hook of the plugin object. *)
Definition writeBundle (bundleOptions : BundleOptions) : M unit :=
  let frameworkName := framework_name (default vanilla (read (framework options))) in
  if negb (shouldProcessBundle bundleOptions frameworkName) then
    when (truthy_bool (read (verbose options)))
         (console_log (SkippingBundle (dir bundleOptions) frameworkName))
  else
    cwd ← eval process_cwd;
    srcDir ← eval (Path.join_checked [Some cwd; read (sourceDir options)]);
    if negb (truthy_string (dir bundleOptions)) then
      console_warn NoOutputDirectory
    else
      let outDir := default "" (dir bundleOptions) in
      when (truthy_bool (read (verbose options)))
           (console_log (LookingForStaticFiles (read (sourceDir options)) frameworkName));;
      try_catch
        (filesToMinify ← (λ s, (glob_sync (fs s) (read (files options)) srcDir, s));
         if bool_decide (length filesToMinify = 0%nat) then
           when (truthy_bool (read (verbose options))) (console_log NoStaticFilesFound)
         else
           set_counters 0 0;;
           minifyFiles srcDir outDir filesToMinify;;
           count ← get_minifiedCount;
           when (bool_decide (0 < count)%nat)
                (savings ← get_totalSavings;
                 console_log
                   (MinifiedSummary count
                      (if truthy_bool (read (verbose options)) && bool_decide (0 < savings)
                       then Some savings else None))))
        (λ error, console_error (PluginError error)).

End Hook.

Record Plugin : Type := {
  name : string;
  apply : string;
  plugin_writeBundle : BundleOptions → M unit
}.

Definition minifyStatic transformSync glob_sync process_cwd
    (packageJson : Completion PackageJson) (userOptions : MinifyStaticOptions) : Plugin :=
  let options := minifyStatic_options packageJson userOptions in
  {| name := "vite-minify-static-plugin";
     apply := "build";
     plugin_writeBundle := writeBundle transformSync glob_sync process_cwd options |}.

End Esbuild.

(* ===================================================================== *)
(** * Notions the statements below are phrased with *)
(* ===================================================================== *)

(** The directory path of a build output descriptor; a descriptor without
    one has the empty path. *)
Definition directory_path (bundleOptions : BundleOptions) : string :=
  default "" (dir bundleOptions).




(** A manifest with SvelteKit among its development dependencies. *)
Definition sveltekit_manifest : PackageJson :=
  {| dependencies := None;
     devDependencies := Some {[ "@sveltejs/kit" := JString "^2.0.0" ]} |}.


(** A file was written in an iteration that ended with [Success]. *)
Definition written (r : FileTransformResult) : bool :=
  match r with
  | Success _ _ => true
  | _ => false
  end.

(** The bytes an iteration saved: the byte length before minus the byte
    length after, for a file that was written. *)
Definition bytes_saved (r : FileTransformResult) : Z :=
  match r with
  | Success original minified => byteLength original - byteLength minified
  | _ => 0
  end.

Definition files_transformed (results : list FileTransformResult) : nat :=
  length (filter (λ r, written r = true) results).

Definition total_bytes_saved (results : list FileTransformResult) : Z :=
  foldr (λ r total, bytes_saved r + total) 0 results.

(** ** A small project to evaluate the drafts on *)

(** A disk with one static script under [/proj/public] and an empty build
    output directory [/proj/dist]. *)
Definition project_disk : gmap string Node :=
  {[ "/" := Directory;
     "/proj" := Directory;
     "/proj/public" := Directory;
     "/proj/public/a.js" := File "var x = 1;   // comment";
     "/proj/dist" := Directory ]}.

Definition start (disk : gmap string Node) : State :=
  {| fs := disk; console := []; minifiedCount := 0; totalSavings := 0 |}.

(** A [glob.sync] that finds [a.js]. *)
Definition glob_a_js (disk : gmap string Node) (patterns : option (list string)) (cwd : string)
  : Completion (list string) :=
  Returned ["a.js"].

(** Minifiers that answer [var x=1;]. *)
Definition esbuild_minified (source : string) (bag : JsObject)
  : Completion Esbuild.TransformResult :=
  Returned {| Esbuild.code := "var x=1;" |}.

(** esbuild on a script that holds only a comment: under [format: 'iife']
    it answers the empty function wrapper and a line feed, under any other
    bag the empty text. *)
Definition esbuild_on_comment_only (source : string) (bag : JsObject)
  : Completion Esbuild.TransformResult :=
  Returned
    {| Esbuild.code :=
         match bag !! "format" with
         | Some (JString format) =>
             if String.eqb format "iife" then "(()=>{})();" +:+ String "010" "" else ""
         | _ => ""
         end |}.

Definition terser_minified (source : string) (bag : option JsObject)
  : Completion Terser.MinifyOutput :=
  Returned {| Terser.code := Some "var x=1;" |}.

(** terser on a script that holds only a comment: no output text. *)
Definition terser_empty (source : string) (bag : option JsObject)
  : Completion Terser.MinifyOutput :=
  Returned {| Terser.code := None |}.

(** [minifyStatic()] in a project without a manifest, in each draft, and
    [minifyStatic({ sourceDir: undefined })]. *)
Definition no_manifest : Completion PackageJson := Thrown (ENOENT "package.json").

Definition esbuild_defaults : Esbuild.MinifyStaticOptions :=
  Esbuild.minifyStatic_options no_manifest Esbuild.empty_options.

Definition terser_defaults : Terser.MinifyStaticOptions :=
  Terser.minifyStatic_options no_manifest Terser.empty_options.

(** [minifyStatic({ esBuildOptions: { minify: true } })]. *)
Definition esbuild_minify_only : Esbuild.MinifyStaticOptions :=
  Esbuild.minifyStatic_options no_manifest
    {| Esbuild.sourceDir := Absent; Esbuild.files := Absent;
       Esbuild.esBuildOptions := Present (Some {[ "minify" := JBool true ]});
       Esbuild.verbose := Absent; Esbuild.outputDir := Absent;
       Esbuild.framework := Absent |}.

Definition esbuild_undefined_sourceDir : Esbuild.MinifyStaticOptions :=
  Esbuild.minifyStatic_options no_manifest
    {| Esbuild.sourceDir := Present None; Esbuild.files := Absent;
       Esbuild.esBuildOptions := Absent; Esbuild.verbose := Absent;
       Esbuild.outputDir := Absent; Esbuild.framework := Absent |}.

Definition terser_undefined_sourceDir : Terser.MinifyStaticOptions :=
  Terser.minifyStatic_options no_manifest
    {| Terser.sourceDir := Present None; Terser.files := Absent;
       Terser.terserOptions := Absent; Terser.verbose := Absent;
       Terser.outputDir := Absent; Terser.framework := Absent |}.

(** A [glob.sync] that cannot list the source directory. *)
Definition glob_fails (disk : gmap string Node) (patterns : option (list string)) (cwd : string)
  : Completion (list string) :=
  Thrown (ENOENT cwd).

(** A [glob.sync] that finds nothing. *)
Definition glob_nothing (disk : gmap string Node) (patterns : option (list string))
    (cwd : string) : Completion (list string) :=
  Returned [].

Definition dist : BundleOptions := {| dir := Some "/proj/dist" |}.

(** The project once more, with the destination of [a.js] already there: as
    a directory, and as a file left by an earlier build. *)
Definition disk_with_directory_destination : gmap string Node :=
  <["/proj/dist/a.js" := Directory]> project_disk.

Definition disk_with_old_destination : gmap string Node :=
  <["/proj/dist/a.js" := File "old"]> project_disk.

(** The project with a script that holds only a comment. *)
Definition disk_with_comment_only : gmap string Node :=
  <["/proj/public/a.js" := File "// only a comment"]> project_disk.

(** A build output descriptor without a directory. *)
Definition no_directory : BundleOptions := {| dir := None |}.

(* ===================================================================== *)
(** * Proof tools *)
(* ===================================================================== *)

(** Unfolds the state operations down to functions on [State]. *)
Ltac unfold_run :=
  unfold try_catch, eval, when, existsSync, readFileSync, statSync, unlinkSync,
    mkdirSync, writeFileSync, console_log, console_warn, console_error, console_emit,
    increment_minifiedCount, add_totalSavings, set_counters, get_minifiedCount,
    get_totalSavings, with_fs, mbind, M_bind, mret, M_ret in *.

(** Splits on every [match] of the goal, keeping the equations. *)
Ltac split_cases := repeat (case_match; simpl in *; simplify_eq).

#[local] Arguments Path.join : simpl never.
#[local] Arguments Path.dirname : simpl never.
#[local] Arguments Path.extname : simpl never.
#[local] Arguments mkdir_p : simpl never.
#[local] Arguments toLowerCase : simpl never.
#[local] Arguments byteLength : simpl never.


(* ===================================================================== *)
(** * node:path on sample inputs *)
(* ===================================================================== *)

Example join_resolves_segments :
  Path.join ["/proj/dist"; "assets"; "../widgets/./a.js"] = "/proj/dist/widgets/a.js"
  ∧ Path.join ["/proj"; ""] = "/proj"
  ∧ Path.join [""; ""] = "."
  ∧ Path.join ["a"; "../../b/"] = "../b/".
Proof. repeat split. Qed.

Example join_checked_rejects_undefined :
  Path.join_checked [Some "/proj"; None]
    = Thrown (TypeError "The path argument must be of type string")
  ∧ Path.join_checked [Some "/proj"; Some "public"] = Returned "/proj/public".
Proof. repeat split. Qed.

Example dirname_drops_last_component :
  Path.dirname "/proj/dist/a.js" = "/proj/dist"
  ∧ Path.dirname "/proj" = "/"
  ∧ Path.dirname "a.js" = "."
  ∧ Path.dirname "widgets/a.js/" = "widgets".
Proof. repeat split. Qed.

Example extname_is_last_suffix :
  toLowerCase (Path.extname "widgets/App.TSX") = ".tsx"
  ∧ Path.extname "a.min.js" = ".js"
  ∧ Path.extname ".profile" = ""
  ∧ Path.extname "widgets.d/readme" = "".
Proof. repeat split. Qed.

(* ===================================================================== *)
(** * Theorems: substrings *)
(* ===================================================================== *)

Section Substrings.

Lemma prefix_app (needle hay : string) :
  String.prefix needle hay = true ↔ ∃ post, hay = needle +:+ post.
Proof.
  revert needle. induction hay as [|c hay IH]; intros [|a needle]; simpl.
  - split; [by exists ""|done].
  - split; [done|]. intros [post Hpost]. discriminate.
  - split; [by eexists|done].
  - destruct (ascii_dec a c) as [->|Hne].
    + rewrite IH. split; intros [post Hpost]; exists post.
      * by rewrite Hpost.
      * by injection Hpost.
    + split; [done|]. intros [post Hpost]. injection Hpost as ??. congruence.
Qed.

Lemma includes_unfold (hay needle : string) :
  includes hay needle =
    if String.prefix needle hay then true
    else match hay with
         | EmptyString => false
         | String _ rest => includes rest needle
         end.
Proof. by destruct hay. Qed.

Lemma includes_contains (hay needle : string) :
  includes hay needle = true ↔ contains hay needle.
Proof.
  unfold contains. induction hay as [|c hay IH]; rewrite includes_unfold;
    destruct (String.prefix needle _) eqn:Hp.
  - apply prefix_app in Hp as [post Hpost]. split; [|done].
    intros _. exists "", post. exact Hpost.
  - split; [done|]. intros ([|??] & post & Hpost); [|discriminate].
    assert (String.prefix needle "" = true) as Ht; [|congruence].
    apply prefix_app. by exists post.
  - apply prefix_app in Hp as [post Hpost]. split; [|done].
    intros _. exists "", post. exact Hpost.
  - rewrite IH. split.
    + intros (pre & post & ->). by exists (String c pre), post.
    + intros ([|c' pre] & post & Hpost).
      * assert (String.prefix needle (String c hay) = true) as Ht; [|congruence].
        apply prefix_app. by exists post.
      * injection Hpost as -> ->. by exists pre, post.
Qed.

Lemma not_includes_contains (hay needle : string) :
  includes hay needle = false ↔ ¬ contains hay needle.
Proof.
  rewrite <- includes_contains. by destruct (includes hay needle).
Qed.

End Substrings.

(* ===================================================================== *)
(** * Theorems: framework detection, option resolution, bundle filter *)
(* ===================================================================== *)

Section Detection.


Lemma detectFramework_concrete (packageJson : Completion PackageJson) :
  detectFramework packageJson ∈ [sveltekit; react; vue; vanilla].
Proof.
  unfold detectFramework. repeat case_match; repeat constructor.
Qed.

Lemma concrete_not_auto (f : Framework) :
  f ∈ [sveltekit; react; vue; vanilla] → f ≠ auto.
Proof.
  intros Hin ->. repeat (apply elem_of_cons in Hin as [Hin|Hin]; [done|]).
  by apply elem_of_nil in Hin.
Qed.

End Detection.



(** C9.  Whatever the user options and the manifest, the [framework]
    property of the resolved options is present and is one of [sveltekit],
    [react], [vue], [vanilla], never [auto]; in both drafts. *)
Theorem resolved_framework_is_concrete
    (packageJson : Completion PackageJson)
    (esbuildOptions : Esbuild.MinifyStaticOptions)
    (terserOptions : Terser.MinifyStaticOptions) :
  (∃ resolved,
     Esbuild.framework (Esbuild.minifyStatic_options packageJson esbuildOptions)
       = Present (Some resolved)
     ∧ resolved ≠ auto ∧ resolved ∈ [sveltekit; react; vue; vanilla])
  ∧ (∃ resolved,
     Terser.framework (Terser.minifyStatic_options packageJson terserOptions)
       = Present (Some resolved)
     ∧ resolved ≠ auto ∧ resolved ∈ [sveltekit; react; vue; vanilla]).
Proof.
  pose proof (detectFramework_concrete packageJson) as Hd.
  assert (∀ f, f ∈ [sveltekit; react; vue; vanilla] →
               f ≠ auto ∧ f ∈ [sveltekit; react; vue; vanilla]) as Hboth
    by (intros f Hf; split; [by apply concrete_not_auto | done]).
  split; eexists; (split; [reflexivity|]); apply Hboth.
  - unfold Esbuild.detectedFramework.
    destruct (read (Esbuild.framework esbuildOptions)) as [[]|];
      first [exact Hd | repeat constructor].
  - unfold Terser.detectedFramework.
    destruct (read (Terser.framework terserOptions)) as [[]|];
      first [exact Hd | repeat constructor].
Qed.

(** C2, where the code departs from it.  With no [framework] given, both
    drafts resolve to [vanilla] and to the source directory [public]
    whatever the manifest says; on a manifest that declares SvelteKit the
    detector itself would answer [sveltekit]. *)
Theorem unset_framework_is_not_detected (packageJson : Completion PackageJson) :
  detectFramework (Returned sveltekit_manifest) = sveltekit
  ∧ Esbuild.framework (Esbuild.minifyStatic_options packageJson Esbuild.empty_options)
      = Present (Some vanilla)
  ∧ Esbuild.sourceDir (Esbuild.minifyStatic_options packageJson Esbuild.empty_options)
      = Present (Some "public")
  ∧ Terser.framework (Terser.minifyStatic_options packageJson Terser.empty_options)
      = Present (Some vanilla)
  ∧ Terser.sourceDir (Terser.minifyStatic_options packageJson Terser.empty_options)
      = Present (Some "public").
Proof. repeat split. Qed.

(** X5 (the part of C2 the code follows, in both drafts).  [framework: 'auto']
    resolves to what the detector answers, with the source directory
    [static] for SvelteKit, and any other given value is kept. *)
Lemma given_framework_resolution (packageJson : Completion PackageJson) (given : Framework) :
  let esbuild :=
    Esbuild.minifyStatic_options packageJson
      {| Esbuild.sourceDir := Absent; Esbuild.files := Absent;
         Esbuild.esBuildOptions := Absent; Esbuild.verbose := Absent;
         Esbuild.outputDir := Absent; Esbuild.framework := Present (Some given) |} in
  let terser :=
    Terser.minifyStatic_options packageJson
      {| Terser.sourceDir := Absent; Terser.files := Absent;
         Terser.terserOptions := Absent; Terser.verbose := Absent;
         Terser.outputDir := Absent; Terser.framework := Present (Some given) |} in
  let expected := if decide (given = auto) then detectFramework packageJson else given in
  Esbuild.framework esbuild = Present (Some expected)
  ∧ Terser.framework terser = Present (Some expected)
  ∧ Esbuild.sourceDir esbuild
      = Present (Some (if decide (expected = sveltekit) then "static" else "public"))
  ∧ Terser.sourceDir terser
      = Present (Some (if decide (expected = sveltekit) then "static" else "public")).
Proof.
  pose proof (concrete_not_auto _ (detectFramework_concrete packageJson)) as Hd.
  unfold Esbuild.minifyStatic_options, Terser.minifyStatic_options,
    Esbuild.detectedFramework, Terser.detectedFramework.
  destruct given; simpl; try done.
  destruct (detectFramework packageJson); done.
Qed.

Section BundleFilter.

Lemma or_string_empty (a : option string) : or_string a "" = default "" a.
Proof.
  destruct a as [s|]; [|done]. simpl.
  destruct (String.eqb_spec s ""); by subst.
Qed.

Lemma absent_path_is_empty (bundleOptions : BundleOptions) :
  truthy_string (dir bundleOptions) = false → directory_path bundleOptions = "".
Proof.
  unfold directory_path. destruct (dir bundleOptions) as [s|]; [|done]. simpl.
  destruct (String.eqb_spec s ""); by subst.
Qed.

End BundleFilter.

(** C3.  For the framework [sveltekit] the bundle filter answers [true]
    exactly when the directory path of the descriptor contains [client],
    whatever else it contains; for any other framework it answers [true]
    exactly when the path contains neither [server] nor [ssr]. *)
Theorem shouldProcessBundle_by_framework (bundleOptions : BundleOptions) (framework : string) :
  (framework = "sveltekit" →
     (shouldProcessBundle bundleOptions framework = true
      ↔ contains (directory_path bundleOptions) "client"))
  ∧ (framework ≠ "sveltekit" →
     (shouldProcessBundle bundleOptions framework = true
      ↔ ¬ contains (directory_path bundleOptions) "server"
        ∧ ¬ contains (directory_path bundleOptions) "ssr")).
Proof.
  unfold shouldProcessBundle, directory_path. rewrite or_string_empty.
  split.
  - intros ->. simpl. apply includes_contains.
  - intros Hne. destruct (String.eqb_spec framework "sveltekit") as [|_]; [done|].
    rewrite andb_true_iff, !negb_true_iff. by rewrite !not_includes_contains.
Qed.

(** C6, where [src/index.ts] departs from it.  A user bag that only sets
    [target] replaces the whole default bag of the esbuild draft: the
    defaults [minify], [format] and [loader] are gone from the resolved
    options. *)
Theorem esbuild_options_replace_defaults (packageJson : Completion PackageJson) :
  let userOptions :=
    {| Esbuild.sourceDir := Absent; Esbuild.files := Absent;
       Esbuild.esBuildOptions := Present (Some {[ "target" := JString "es2015" ]});
       Esbuild.verbose := Absent; Esbuild.outputDir := Absent;
       Esbuild.framework := Absent |} in
  read (Esbuild.esBuildOptions (Esbuild.minifyStatic_options packageJson userOptions))
    = Some {[ "target" := JString "es2015" ]}
  ∧ Esbuild.default_esBuildOptions !! "minify" = Some (JBool true)
  ∧ ({[ "target" := JString "es2015" ]} : JsObject) !! "minify" = None
  ∧ ({[ "target" := JString "es2015" ]} : JsObject) !! "format" = None
  ∧ ({[ "target" := JString "es2015" ]} : JsObject) !! "loader" = None.
Proof. repeat split. Qed.

(** X4 (the terser draft on C6).  Under every key the resolved
    [terserOptions] hold the user's value when the user's bag has the key,
    and the default's otherwise. *)
Lemma terser_options_merge_by_key
    (packageJson : Completion PackageJson) (userOptions : Terser.MinifyStaticOptions) :
  ∃ merged,
    Terser.terserOptions (Terser.minifyStatic_options packageJson userOptions)
      = Present (Some merged)
    ∧ ∀ key,
        merged !! key =
          match read (Terser.terserOptions userOptions) ≫= (λ bag, bag !! key) with
          | Some given => Some given
          | None => Terser.default_terserOptions !! key
          end.
Proof.
  eexists. split; [reflexivity|]. intros key.
  unfold js_spread_opt, js_spread. rewrite lookup_union. simpl.
  destruct (read (Terser.terserOptions userOptions)) as [bag|]; simpl.
  - destruct (bag !! key); by destruct (Terser.default_terserOptions !! key).
  - rewrite lookup_empty. by destruct (Terser.default_terserOptions !! key).
Qed.

(* ===================================================================== *)
(** * Theorems: the per-file loop *)
(* ===================================================================== *)

Section Disk.

Lemma mkdir_p_keeps (fuel : nat) (disk disk' : gmap string Node) (path : string) :
  mkdir_p fuel disk path = Returned disk' →
  ∀ p n, disk !! p = Some n → disk' !! p = Some n.
Proof.
  revert disk' path. induction fuel as [|fuel IH]; intros disk' path Hrun p n Hp;
    unfold mkdir_p in Hrun; fold mkdir_p in Hrun;
    destruct (disk !! path) as [[]|] eqn:Hpath; simplify_eq; try done.
  - rewrite lookup_insert_ne; [done|]. congruence.
  - destruct (String.eqb _ _); simplify_eq.
    + rewrite lookup_insert_ne; [done|]. congruence.
    + destruct (mkdir_p fuel disk (Path.dirname path)) as [disk''|] eqn:Hup;
        simplify_eq.
      rewrite lookup_insert_ne; [by eapply IH|]. congruence.
Qed.

Lemma truthy_string_nonempty (v : option string) :
  truthy_string v = true → ∃ s, v = Some s ∧ s ≠ "".
Proof.
  destruct v as [s|]; [|done]. simpl. destruct (String.eqb_spec s ""); [done|eauto].
Qed.

End Disk.

Section TerserLoop.

Variable minify : string → option JsObject → Completion Terser.MinifyOutput.
Variable options : Terser.MinifyStaticOptions.

Abbreviation minifyFile := (Terser.minifyFile minify options).
Abbreviation outputPath := (Terser.outputPath options).
Abbreviation verbose := (truthy_bool (read (Terser.verbose options))).

Lemma terser_minifyFile_counters (srcDir outDir file : string) (s : State) :
  ∃ r, (minifyFile srcDir outDir file s).1 = Returned r
     ∧ minifiedCount (minifyFile srcDir outDir file s).2
         = (minifiedCount s + (if written r then 1 else 0))%nat
     ∧ totalSavings (minifyFile srcDir outDir file s).2
         = totalSavings s + (if verbose then bytes_saved r else 0).
Proof.
  unfold Terser.minifyFile, Terser.safeUnlink. unfold_run. simpl.
  split_cases; eexists; (split; [reflexivity|]); simpl; split; lia.
Qed.

Lemma terser_minifyFile_frame (srcDir outDir file : string) (s : State) :
  ∀ p n, fs s !! p = Some n →
         p ≠ outputPath outDir file ∨ n = Directory →
         fs (minifyFile srcDir outDir file s).2 !! p = Some n.
Proof.
  intros p n Hp Hcase. revert Hp.
  unfold Terser.minifyFile, Terser.safeUnlink. unfold_run. simpl.
  generalize (outputPath outDir file) Hcase. clear Hcase. intros out Hcase.
  split_cases; intros Hp; try done;
    try (match goal with
         | H : mkdir_p _ _ _ = Returned _ |- _ =>
             eapply (mkdir_p_keeps _ _ _ _ H) in Hp
         end);
    (destruct (decide (p = out)) as [->|Hne];
     [ destruct Hcase as [ | -> ]; [done|]; congruence
     | rewrite ?lookup_insert_ne, ?lookup_delete_ne by done; done ]).
Qed.

Lemma terser_success_written (srcDir outDir file : string) (s : State)
    (original minified : string) :
  (minifyFile srcDir outDir file s).1 = Returned (Success original minified) →
  ∃ result,
    fs s !! Terser.sourcePath srcDir file = Some (File original)
    ∧ minify original (read (Terser.terserOptions options)) = Returned result
    ∧ Terser.code result = Some minified ∧ minified ≠ ""
    ∧ fs (minifyFile srcDir outDir file s).2 !! outputPath outDir file
        = Some (File minified).
Proof.
  unfold Terser.minifyFile, Terser.safeUnlink. unfold_run. simpl.
  generalize (outputPath outDir file) (Terser.sourcePath srcDir file).
  intros out src.
  split_cases; intros Hr; simplify_eq;
    match goal with
    | H : negb (truthy_string (Terser.code ?res)) = false |- _ =>
        apply negb_false_iff, truthy_string_nonempty in H as (m & Hcode & Hm);
        exists res; rewrite Hcode; simpl;
        split_and!; try done; by rewrite lookup_insert_eq
    end.
Qed.

Lemma terser_empty_result_skipped (srcDir outDir file : string) (s : State)
    (original : string) (result : Terser.MinifyOutput) :
  fs s !! Terser.sourcePath srcDir file = Some (File original) →
  minify original (read (Terser.terserOptions options)) = Returned result →
  truthy_string (Terser.code result) = false →
  minifyFile srcDir outDir file s
    = (Returned SkippedEmptyResult,
       {| fs := fs s;
          console := console s ++ [(Warn, TerserReturnedEmptyResult file)];
          minifiedCount := minifiedCount s;
          totalSavings := totalSavings s |}).
Proof.
  intros Hsrc Hmin Hcode.
  unfold Terser.minifyFile, Terser.safeUnlink. unfold_run. simpl.
  repeat (rewrite ?Hsrc, ?Hmin, ?Hcode; simpl). done.
Qed.

Lemma terser_directory_not_replaced (srcDir outDir file : string) (s : State)
    (original minified : string) :
  fs s !! outputPath outDir file = Some Directory →
  is_Some (fs s !! Path.dirname (outputPath outDir file)) →
  fs s !! Terser.sourcePath srcDir file = Some (File original) →
  minify original (read (Terser.terserOptions options))
    = Returned {| Terser.code := Some minified |} →
  minified ≠ "" →
  minifyFile srcDir outDir file s
    = (Returned SkippedNotReplaced,
       {| fs := fs s;
          console := console s ++ [(Warn, CannotUnlinkDirectory (outputPath outDir file));
                                   (Warn, CouldNotReplace (outputPath outDir file))];
          minifiedCount := minifiedCount s;
          totalSavings := totalSavings s |}).
Proof.
  intros Hout [parent Hparent] Hsrc Hmin Hne.
  unfold Terser.minifyFile, Terser.safeUnlink. unfold_run. simpl.
  assert (String.eqb minified "" = false) as Hnonempty
    by (by destruct (String.eqb_spec minified "")).
  repeat (rewrite ?Hsrc, ?Hmin, ?Hnonempty, ?Hparent, ?Hout; simpl).
  by rewrite <- app_assoc.
Qed.

End TerserLoop.

Section EsbuildLoop.

Variable transformSync : string → JsObject → Completion Esbuild.TransformResult.
Variable options : Esbuild.MinifyStaticOptions.

Abbreviation esbuild_minifyFile := (Esbuild.minifyFile transformSync options).
Abbreviation esbuild_verbose := (truthy_bool (read (Esbuild.verbose options))).

Lemma esbuild_minifyFile_counters (srcDir outDir file : string) (s : State) :
  ∃ r, (esbuild_minifyFile srcDir outDir file s).1 = Returned r
     ∧ minifiedCount (esbuild_minifyFile srcDir outDir file s).2
         = (minifiedCount s + (if written r then 1 else 0))%nat
     ∧ totalSavings (esbuild_minifyFile srcDir outDir file s).2
         = totalSavings s + (if esbuild_verbose then bytes_saved r else 0).
Proof.
  unfold Esbuild.minifyFile, Esbuild.mkDirSync. unfold_run. simpl.
  split_cases; eexists; (split; [reflexivity|]); simpl; split; lia.
Qed.

Lemma esbuild_success_written (srcDir outDir file : string) (s : State)
    (original minified : string) :
  (esbuild_minifyFile srcDir outDir file s).1 = Returned (Success original minified) →
  ∃ loader result,
    fs s !! Esbuild.sourcePath srcDir file = Some (File original)
    ∧ Esbuild.chooseLoader options file = Returned loader
    ∧ transformSync original
        (<["loader" := loader]> (default ∅ (read (Esbuild.esBuildOptions options))))
        = Returned result
    ∧ Esbuild.code result = minified
    ∧ fs (esbuild_minifyFile srcDir outDir file s).2 !! Esbuild.outputPath options outDir file
        = Some (File minified).
Proof.
  unfold Esbuild.minifyFile, Esbuild.mkDirSync. unfold_run. simpl.
  generalize (Esbuild.outputPath options outDir file) (Esbuild.sourcePath srcDir file).
  intros out src.
  split_cases; intros Hr; simplify_eq;
    (do 2 eexists; split_and!; [done..|by rewrite lookup_insert_eq]).
Qed.

End EsbuildLoop.

Section Loop.

Context {A : Type} (body : A → M FileTransformResult) (verbose : bool).

Lemma for_of_cons (x : A) (rest : list A) (s : State) :
  for_of (x :: rest) body s =
    match body x s with
    | (Returned r, s') =>
        match for_of rest body s' with
        | (Returned rs, s'') => (Returned (r :: rs), s'')
        | (Thrown e, s'') => (Thrown e, s'')
        end
    | (Thrown e, s') => (Thrown e, s')
    end.
Proof.
  simpl. unfold mbind, M_bind, mret, M_ret.
  destruct (body x s) as [[r|e] s']; [|done].
  by destruct (for_of rest body s') as [[rs|e] s''].
Qed.

Hypothesis body_counts : ∀ x s,
  ∃ r, (body x s).1 = Returned r
     ∧ minifiedCount (body x s).2 = (minifiedCount s + (if written r then 1 else 0))%nat
     ∧ totalSavings (body x s).2 = totalSavings s + (if verbose then bytes_saved r else 0).

Lemma files_transformed_cons (r : FileTransformResult) (rs : list FileTransformResult) :
  files_transformed (r :: rs) = ((if written r then 1 else 0) + files_transformed rs)%nat.
Proof.
  unfold files_transformed. rewrite filter_cons.
  destruct (written r); by case_decide.
Qed.

Lemma for_of_summary (xs : list A) (s : State) :
  ∃ rs, (for_of xs body s).1 = Returned rs
      ∧ length rs = length xs
      ∧ minifiedCount (for_of xs body s).2 = (minifiedCount s + files_transformed rs)%nat
      ∧ totalSavings (for_of xs body s).2
          = totalSavings s + (if verbose then total_bytes_saved rs else 0).
Proof.
  revert s. induction xs as [|x rest IH]; intros s.
  - exists []. unfold files_transformed, total_bytes_saved. simpl.
    repeat split; [lia | destruct verbose; lia].
  - rewrite for_of_cons.
    destruct (body_counts x s) as (r & Hr & Hcount & Hsave).
    destruct (body x s) as [c s']. simpl in *. subst c.
    destruct (IH s') as (rs & Hrs & Hlen & Hcount' & Hsave').
    destruct (for_of rest body s') as [c s'']. simpl in *. subst c.
    exists (r :: rs). simpl. rewrite files_transformed_cons.
    repeat split; [congruence | lia | destruct verbose; lia].
Qed.

(** The iterations after a file run from the state that file left,
    whatever its own result was. *)
Lemma for_of_app (xs ys : list A) (s : State) :
  ∃ rs1 rs2,
    (for_of xs body s).1 = Returned rs1
    ∧ (for_of ys body (for_of xs body s).2).1 = Returned rs2
    ∧ length rs1 = length xs
    ∧ length rs2 = length ys
    ∧ for_of (xs ++ ys) body s
        = (Returned (rs1 ++ rs2), (for_of ys body (for_of xs body s).2).2).
Proof.
  revert s. induction xs as [|x rest IH]; intros s.
  - destruct (for_of_summary ys s) as (rs & Hrs & Hlen & _).
    exists [], rs. simpl. split_and!; try done.
    destruct (for_of ys body s) as [c s']. simpl in *. by subst.
  - rewrite <- app_comm_cons, !for_of_cons.
    destruct (body_counts x s) as (r & Hr & _).
    destruct (body x s) as [c s']. simpl in *. subst c.
    destruct (IH s') as (rs1 & rs2 & H1 & H2 & Hlen1 & Hlen2 & H3). rewrite H3.
    destruct (for_of rest body s') as [c s'']. simpl in *. subst c.
    exists (r :: rs1), rs2. simpl. split_and!; try done. by rewrite Hlen1.
Qed.

End Loop.

(** C7, amended.  In both drafts the loop visits every file and returns;
    afterwards the counter of minified files has grown by the number of
    files written, and the counter of saved bytes has grown by the sum, over
    the files written, of byte length before minus byte length after when
    [verbose] is on, and has not changed when [verbose] is off. *)
Theorem run_summary_counts_written_files
    (transformSync : string → JsObject → Completion Esbuild.TransformResult)
    (minify : string → option JsObject → Completion Terser.MinifyOutput)
    (esbuildOptions : Esbuild.MinifyStaticOptions)
    (terserOptions : Terser.MinifyStaticOptions)
    (srcDir outDir : string) (filesToMinify : list string) (s : State) :
  (∃ results,
     (Esbuild.minifyFiles transformSync esbuildOptions srcDir outDir filesToMinify s).1
       = Returned results
     ∧ length results = length filesToMinify
     ∧ minifiedCount
         (Esbuild.minifyFiles transformSync esbuildOptions srcDir outDir filesToMinify s).2
         = (minifiedCount s + files_transformed results)%nat
     ∧ totalSavings
         (Esbuild.minifyFiles transformSync esbuildOptions srcDir outDir filesToMinify s).2
         = totalSavings s
           + (if truthy_bool (read (Esbuild.verbose esbuildOptions))
              then total_bytes_saved results else 0))
  ∧ (∃ results,
     (Terser.minifyFiles minify terserOptions srcDir outDir filesToMinify s).1
       = Returned results
     ∧ length results = length filesToMinify
     ∧ minifiedCount
         (Terser.minifyFiles minify terserOptions srcDir outDir filesToMinify s).2
         = (minifiedCount s + files_transformed results)%nat
     ∧ totalSavings
         (Terser.minifyFiles minify terserOptions srcDir outDir filesToMinify s).2
         = totalSavings s
           + (if truthy_bool (read (Terser.verbose terserOptions))
              then total_bytes_saved results else 0)).
Proof.
  split.
  - apply for_of_summary. intros file s'. apply esbuild_minifyFile_counters.
  - apply for_of_summary. intros file s'. apply terser_minifyFile_counters.
Qed.

(** C7, as stated, fails: with [verbose] off, the hook of either draft
    writes the 8-byte minified text of a 23-byte script, counts one file,
    and leaves the saved bytes at zero. *)
Lemma savings_not_accumulated_when_quiet :
  fs (Terser.writeBundle terser_minified glob_a_js (Returned "/proj") terser_defaults dist
        (start project_disk)).2 !! "/proj/dist/a.js" = Some (File "var x=1;")
  ∧ minifiedCount
      (Terser.writeBundle terser_minified glob_a_js (Returned "/proj") terser_defaults dist
         (start project_disk)).2 = 1%nat
  ∧ totalSavings
      (Terser.writeBundle terser_minified glob_a_js (Returned "/proj") terser_defaults dist
         (start project_disk)).2 = 0
  ∧ fs (Esbuild.writeBundle esbuild_minified glob_a_js (Returned "/proj") esbuild_defaults dist
          (start project_disk)).2 !! "/proj/dist/a.js" = Some (File "var x=1;")
  ∧ minifiedCount
      (Esbuild.writeBundle esbuild_minified glob_a_js (Returned "/proj") esbuild_defaults dist
         (start project_disk)).2 = 1%nat
  ∧ totalSavings
      (Esbuild.writeBundle esbuild_minified glob_a_js (Returned "/proj") esbuild_defaults dist
         (start project_disk)).2 = 0
  ∧ byteLength "var x = 1;   // comment" - byteLength "var x=1;" = 15.
Proof. repeat split; by vm_compute. Qed.

#[local] Arguments for_of : simpl never.
#[local] Arguments Esbuild.minifyFiles : simpl never.
#[local] Arguments Terser.minifyFiles : simpl never.
#[local] Arguments includes : simpl never.


(** X9.  In both drafts an iteration ends with [Success] only when the source
    file was read, the minifier returned the minified text for it, and the
    destination holds that text afterwards. *)
Theorem success_means_written
    (transformSync : string → JsObject → Completion Esbuild.TransformResult)
    (minify : string → option JsObject → Completion Terser.MinifyOutput)
    (esbuildOptions : Esbuild.MinifyStaticOptions)
    (terserOptions : Terser.MinifyStaticOptions)
    (srcDir outDir file : string) (s : State) (original minified : string) :
  ((Esbuild.minifyFile transformSync esbuildOptions srcDir outDir file s).1
     = Returned (Success original minified) →
   fs s !! Esbuild.sourcePath srcDir file = Some (File original)
   ∧ (∃ loader result,
        Esbuild.chooseLoader esbuildOptions file = Returned loader
        ∧ transformSync original
            (<["loader" := loader]> (default ∅ (read (Esbuild.esBuildOptions esbuildOptions))))
          = Returned result
        ∧ Esbuild.code result = minified)
   ∧ fs (Esbuild.minifyFile transformSync esbuildOptions srcDir outDir file s).2
       !! Esbuild.outputPath esbuildOptions outDir file = Some (File minified))
  ∧ ((Terser.minifyFile minify terserOptions srcDir outDir file s).1
       = Returned (Success original minified) →
     fs s !! Terser.sourcePath srcDir file = Some (File original)
     ∧ minify original (read (Terser.terserOptions terserOptions))
         = Returned {| Terser.code := Some minified |}
     ∧ minified ≠ ""
     ∧ fs (Terser.minifyFile minify terserOptions srcDir outDir file s).2
         !! Terser.outputPath terserOptions outDir file = Some (File minified)).
Proof.
  split; intros Hsuccess.
  - apply esbuild_success_written in Hsuccess
      as (loader & result & Hsrc & Hloader & Hrun & Hcode & Hout).
    split_and!; [done| |done]. by exists loader, result.
  - apply terser_success_written in Hsuccess
      as (result & Hsrc & Hrun & Hcode & Hne & Hout).
    destruct result as [code]. simpl in Hcode. subst code. done.
Qed.

Lemma success_means_written_witness :
  fs (Terser.minifyFile terser_minified terser_defaults "/proj/public" "/proj/dist" "a.js"
        (start disk_with_old_destination)).2 !! "/proj/dist/a.js"
    = Some (File "var x=1;").
Proof.
  destruct (success_means_written esbuild_minified terser_minified
              esbuild_defaults terser_defaults "/proj/public" "/proj/dist" "a.js"
              (start disk_with_old_destination) "var x = 1;   // comment" "var x=1;")
    as [_ Hterser].
  destruct Hterser as (_ & _ & _ & Hout); [by vm_compute|]. exact Hout.
Defined.

(* ===================================================================== *)
(** * Theorems: the hook *)
(* ===================================================================== *)

Section Hook.

Variable transformSync : string → JsObject → Completion Esbuild.TransformResult.
Variable minify : string → option JsObject → Completion Terser.MinifyOutput.
Variable glob_sync :
  gmap string Node → option (list string) → string → Completion (list string).
Variable process_cwd : string.

Lemma esbuild_writeBundle_returns (options : Esbuild.MinifyStaticOptions)
    (bundleOptions : BundleOptions) (s : State) :
  is_Some (read (Esbuild.sourceDir options)) →
  (Esbuild.writeBundle transformSync glob_sync (Returned process_cwd) options bundleOptions s).1
    = Returned ().
Proof.
  intros [d Hd]. unfold Esbuild.writeBundle, Path.join_checked. rewrite Hd.
  unfold_run. simpl. split_cases; done.
Qed.

Lemma terser_writeBundle_returns (options : Terser.MinifyStaticOptions)
    (bundleOptions : BundleOptions) (s : State) :
  is_Some (read (Terser.sourceDir options)) →
  (Terser.writeBundle minify glob_sync (Returned process_cwd) options bundleOptions s).1
    = Returned ().
Proof.
  intros [d Hd]. unfold Terser.writeBundle, Path.join_checked. rewrite Hd.
  unfold_run. simpl. split_cases; done.
Qed.

Lemma filter_on_absent_path (bundleOptions : BundleOptions) (framework : string) :
  truthy_string (dir bundleOptions) = false →
  shouldProcessBundle bundleOptions framework
    = negb (String.eqb framework "sveltekit").
Proof.
  intros Habsent. unfold shouldProcessBundle.
  rewrite or_string_empty. fold (directory_path bundleOptions).
  rewrite (absent_path_is_empty _ Habsent).
  by destruct (String.eqb framework "sveltekit").
Qed.

Lemma framework_name_sveltekit (f : Framework) :
  String.eqb (framework_name f) "sveltekit" = bool_decide (f = sveltekit).
Proof. by destruct f. Qed.

Lemma esbuild_hook_without_directory (options : Esbuild.MinifyStaticOptions)
    (bundleOptions : BundleOptions) (s : State) (resolved : Framework) :
  truthy_string (dir bundleOptions) = false →
  read (Esbuild.framework options) = Some resolved →
  is_Some (read (Esbuild.sourceDir options)) →
  let after := Esbuild.writeBundle transformSync glob_sync (Returned process_cwd)
      options bundleOptions s in
  after.1 = Returned () ∧ fs after.2 = fs s
  ∧ console after.2 =
      console s ++
        (if decide (resolved = sveltekit)
         then (if truthy_bool (read (Esbuild.verbose options))
               then [(Log, SkippingBundle (dir bundleOptions) "sveltekit")] else [])
         else [(Warn, NoOutputDirectory)]).
Proof.
  intros Habsent Hfw [d Hd]. unfold Esbuild.writeBundle, Path.join_checked.
  rewrite Hfw, Hd, (filter_on_absent_path _ _ Habsent), framework_name_sveltekit.
  simpl. rewrite Habsent.
  destruct resolved; simpl; unfold_run;
    destruct (truthy_bool (read (Esbuild.verbose options))); simpl;
    by rewrite ?app_nil_r.
Qed.

Lemma terser_hook_without_directory (options : Terser.MinifyStaticOptions)
    (bundleOptions : BundleOptions) (s : State) (resolved : Framework) :
  truthy_string (dir bundleOptions) = false →
  read (Terser.framework options) = Some resolved →
  is_Some (read (Terser.sourceDir options)) →
  let after := Terser.writeBundle minify glob_sync (Returned process_cwd)
      options bundleOptions s in
  after.1 = Returned () ∧ fs after.2 = fs s
  ∧ console after.2 =
      console s ++
        (if decide (resolved = sveltekit)
         then (if truthy_bool (read (Terser.verbose options))
               then [(Log, SkippingBundle (dir bundleOptions) "sveltekit")] else [])
         else [(Warn, NoOutputDirectory)]).
Proof.
  intros Habsent Hfw [d Hd]. unfold Terser.writeBundle, Path.join_checked.
  rewrite Hfw, Hd, (filter_on_absent_path _ _ Habsent), framework_name_sveltekit.
  simpl. rewrite Habsent.
  destruct resolved; simpl; unfold_run;
    destruct (truthy_bool (read (Terser.verbose options))); simpl;
    by rewrite ?app_nil_r.
Qed.

End Hook.

(** C1, where [src/index.ts] departs from it.  With the destination of
    [a.js] already there as a directory, the esbuild draft calls
    [unlinkSync] on the parent [/proj/dist]; that throws, and the iteration
    ends in its [catch] with a [console.error] line and no warning.  With the
    destination there as a file the same happens: the file of the earlier
    build is neither deleted nor replaced. *)
Theorem esbuild_unlinks_parent_of_destination :
  Esbuild.writeBundle esbuild_minified glob_a_js (Returned "/proj") esbuild_defaults dist
      (start disk_with_directory_destination)
    = (Returned (),
       {| fs := disk_with_directory_destination;
          console := [(Error, ErrorMinifying "a.js" (EISDIR "/proj/dist"))];
          minifiedCount := 0; totalSavings := 0 |})
  ∧ Esbuild.writeBundle esbuild_minified glob_a_js (Returned "/proj") esbuild_defaults dist
      (start disk_with_old_destination)
    = (Returned (),
       {| fs := disk_with_old_destination;
          console := [(Error, ErrorMinifying "a.js" (EISDIR "/proj/dist"))];
          minifiedCount := 0; totalSavings := 0 |}).
Proof. split; by vm_compute. Qed.

(** C5, where [src/index.ts] departs from it.  After
    [minifyStatic({ esBuildOptions: { minify: true } })] the bag handed to
    [transformSync] is [{ minify: true, loader: 'js' }], without
    [format: 'iife']; for a script that holds only a comment
    [transformSync] then answers the empty text, and the esbuild draft
    writes an empty file at the destination, counts it as minified, and logs
    no warning. *)
Theorem esbuild_writes_empty_result :
  read (Esbuild.esBuildOptions esbuild_minify_only) = Some {[ "minify" := JBool true ]}
  ∧ esbuild_on_comment_only "// only a comment"
      (<["loader" := JString "js"]> {[ "minify" := JBool true ]})
    = Returned {| Esbuild.code := "" |}
  ∧ Esbuild.writeBundle esbuild_on_comment_only glob_a_js (Returned "/proj")
      esbuild_minify_only dist (start disk_with_comment_only)
    = (Returned (),
       {| fs := <["/proj/dist/a.js" := File ""]> disk_with_comment_only;
          console := [(Log, MinifiedSummary 1 None)];
          minifiedCount := 1; totalSavings := 0 |}).
Proof. split_and!; by vm_compute. Qed.

(** C4, where the code departs from it.  After
    [minifyStatic({ sourceDir: undefined })] the resolved [sourceDir] is
    [undefined]; for a build output the filter accepts, the hook of either
    draft then throws a [TypeError] from [path.join] (called on what
    [process.cwd()] returned), which stands before the [try], and the throw
    leaves the hook. *)
Theorem hook_throws_on_undefined_sourceDir
    (transformSync : string → JsObject → Completion Esbuild.TransformResult)
    (minify : string → option JsObject → Completion Terser.MinifyOutput)
    (glob_sync : gmap string Node → option (list string) → string → Completion (list string))
    (process_cwd : string) (s : State) :
  read (Esbuild.sourceDir esbuild_undefined_sourceDir) = None
  ∧ read (Terser.sourceDir terser_undefined_sourceDir) = None
  ∧ Esbuild.writeBundle transformSync glob_sync (Returned process_cwd)
      esbuild_undefined_sourceDir dist s
    = (Thrown (TypeError "The path argument must be of type string"), s)
  ∧ Terser.writeBundle minify glob_sync (Returned process_cwd) terser_undefined_sourceDir dist s
    = (Thrown (TypeError "The path argument must be of type string"), s).
Proof. repeat split. Qed.

(** C10, where the code departs from it.  For a descriptor without a
    directory the filter answers [true] under [vanilla]; after
    [minifyStatic({ sourceDir: undefined })] the hook of either draft then
    throws from [path.join] before it reaches the check for a missing output
    directory, and logs no warning. *)
Theorem hook_throws_before_directory_check
    (transformSync : string → JsObject → Completion Esbuild.TransformResult)
    (minify : string → option JsObject → Completion Terser.MinifyOutput)
    (glob_sync : gmap string Node → option (list string) → string → Completion (list string))
    (process_cwd : string) (s : State) :
  shouldProcessBundle no_directory "vanilla" = true
  ∧ Esbuild.writeBundle transformSync glob_sync (Returned process_cwd) esbuild_undefined_sourceDir
      no_directory s
    = (Thrown (TypeError "The path argument must be of type string"), s)
  ∧ Terser.writeBundle minify glob_sync (Returned process_cwd) terser_undefined_sourceDir
      no_directory s
    = (Thrown (TypeError "The path argument must be of type string"), s).
Proof. repeat split. Qed.

(* ===================================================================== *)
(** * What the terser draft guarantees where [src/index.ts] does not *)
(* ===================================================================== *)

(** X1 (the terser draft on C1).  When the destination of a file is a directory,
    the iteration returns without writing, every entry of the disk is still
    there afterwards, and, once the source was read and minified to a
    non-empty text, the iteration leaves the disk as it was and logs two
    warnings. *)
Theorem terser_directory_destination_untouched
    (minify : string → option JsObject → Completion Terser.MinifyOutput)
    (options : Terser.MinifyStaticOptions) (srcDir outDir file : string) (s : State) :
  fs s !! Terser.outputPath options outDir file = Some Directory →
  (∃ r, (Terser.minifyFile minify options srcDir outDir file s).1 = Returned r
        ∧ written r = false)
  ∧ (∀ p n, fs s !! p = Some n →
            fs (Terser.minifyFile minify options srcDir outDir file s).2 !! p = Some n)
  ∧ (∀ original minified,
       is_Some (fs s !! Path.dirname (Terser.outputPath options outDir file)) →
       fs s !! Terser.sourcePath srcDir file = Some (File original) →
       minify original (read (Terser.terserOptions options))
         = Returned {| Terser.code := Some minified |} →
       minified ≠ "" →
       Terser.minifyFile minify options srcDir outDir file s
         = (Returned SkippedNotReplaced,
            {| fs := fs s;
               console :=
                 console s ++
                   [(Warn, CannotUnlinkDirectory (Terser.outputPath options outDir file));
                    (Warn, CouldNotReplace (Terser.outputPath options outDir file))];
               minifiedCount := minifiedCount s;
               totalSavings := totalSavings s |})).
Proof.
  intros Hdir. split_and!.
  - destruct (terser_minifyFile_counters minify options srcDir outDir file s)
      as (r & Hr & _).
    exists r. split; [done|]. destruct r; try done.
    apply terser_success_written in Hr as (_ & _ & _ & _ & _ & Hout).
    pose proof (terser_minifyFile_frame minify options srcDir outDir file s
                  _ _ Hdir (or_intror eq_refl)).
    congruence.
  - intros p n Hp. apply terser_minifyFile_frame; [done|].
    destruct (decide (p = Terser.outputPath options outDir file)) as [->|]; [|by left].
    right. congruence.
  - intros original minified. by apply terser_directory_not_replaced.
Qed.

Lemma terser_directory_destination_untouched_witness :
  fs (start disk_with_directory_destination)
    !! Terser.outputPath terser_defaults "/proj/dist" "a.js" = Some Directory
  ∧ Terser.minifyFile terser_minified terser_defaults "/proj/public" "/proj/dist" "a.js"
      (start disk_with_directory_destination)
    = (Returned SkippedNotReplaced,
       {| fs := disk_with_directory_destination;
          console := [(Warn, CannotUnlinkDirectory "/proj/dist/a.js");
                      (Warn, CouldNotReplace "/proj/dist/a.js")];
          minifiedCount := 0; totalSavings := 0 |}).
Proof.
  split; [by vm_compute|].
  destruct (terser_directory_destination_untouched terser_minified terser_defaults
              "/proj/public" "/proj/dist" "a.js" (start disk_with_directory_destination))
    as (_ & _ & Hwarned); [by vm_compute|].
  apply (Hwarned "var x = 1;   // comment" "var x=1;");
    first [by vm_compute | vm_compute; eauto].
Defined.



(** X3 (the terser draft on C5).  When [minify] yields no text for a file that
    was read, the iteration ends as skipped, logs one warning, and leaves
    the disk and both counters as they were. *)
Theorem terser_skips_empty_result
    (minify : string → option JsObject → Completion Terser.MinifyOutput)
    (options : Terser.MinifyStaticOptions) (srcDir outDir file : string) (s : State)
    (original : string) (result : Terser.MinifyOutput) :
  fs s !! Terser.sourcePath srcDir file = Some (File original) →
  minify original (read (Terser.terserOptions options)) = Returned result →
  truthy_string (Terser.code result) = false →
  Terser.minifyFile minify options srcDir outDir file s
    = (Returned SkippedEmptyResult,
       {| fs := fs s;
          console := console s ++ [(Warn, TerserReturnedEmptyResult file)];
          minifiedCount := minifiedCount s;
          totalSavings := totalSavings s |}).
Proof. apply terser_empty_result_skipped. Qed.

Lemma terser_skips_empty_result_witness :
  Terser.minifyFile terser_empty terser_defaults "/proj/public" "/proj/dist" "a.js"
      (start disk_with_old_destination)
    = (Returned SkippedEmptyResult,
       {| fs := disk_with_old_destination;
          console := [(Warn, TerserReturnedEmptyResult "a.js")];
          minifiedCount := 0; totalSavings := 0 |}).
Proof.
  apply (terser_skips_empty_result terser_empty terser_defaults
           "/proj/public" "/proj/dist" "a.js" (start disk_with_old_destination)
           "var x = 1;   // comment" {| Terser.code := None |}); by vm_compute.
Defined.

(* ===================================================================== *)
(** * What holds of C4 and C10 in both drafts *)
(* ===================================================================== *)

(** X6 (of C4, the loop).  However the iterations over the earlier files ended,
    a failure included, the loop goes on: the later files are processed from
    the state the earlier ones left, and the loop returns one result per
    file. *)
Theorem loop_continues_after_any_file
    (transformSync : string → JsObject → Completion Esbuild.TransformResult)
    (minify : string → option JsObject → Completion Terser.MinifyOutput)
    (esbuildOptions : Esbuild.MinifyStaticOptions)
    (terserOptions : Terser.MinifyStaticOptions)
    (srcDir outDir : string) (earlier later : list string) (s : State) :
  (∃ rs1 rs2,
     (Esbuild.minifyFiles transformSync esbuildOptions srcDir outDir earlier s).1
       = Returned rs1
     ∧ (Esbuild.minifyFiles transformSync esbuildOptions srcDir outDir later
          (Esbuild.minifyFiles transformSync esbuildOptions srcDir outDir earlier s).2).1
       = Returned rs2
     ∧ length rs1 = length earlier
     ∧ length rs2 = length later
     ∧ Esbuild.minifyFiles transformSync esbuildOptions srcDir outDir (earlier ++ later) s
       = (Returned (rs1 ++ rs2),
          (Esbuild.minifyFiles transformSync esbuildOptions srcDir outDir later
             (Esbuild.minifyFiles transformSync esbuildOptions srcDir outDir earlier s).2).2))
  ∧ (∃ rs1 rs2,
     (Terser.minifyFiles minify terserOptions srcDir outDir earlier s).1 = Returned rs1
     ∧ (Terser.minifyFiles minify terserOptions srcDir outDir later
          (Terser.minifyFiles minify terserOptions srcDir outDir earlier s).2).1
       = Returned rs2
     ∧ length rs1 = length earlier
     ∧ length rs2 = length later
     ∧ Terser.minifyFiles minify terserOptions srcDir outDir (earlier ++ later) s
       = (Returned (rs1 ++ rs2),
          (Terser.minifyFiles minify terserOptions srcDir outDir later
             (Terser.minifyFiles minify terserOptions srcDir outDir earlier s).2).2)).
Proof.
  split.
  - eapply for_of_app. intros file s'. apply esbuild_minifyFile_counters.
  - eapply for_of_app. intros file s'. apply terser_minifyFile_counters.
Qed.

(** X7 (of C4, the hook).  When [process.cwd()] returns and the resolved
    [sourceDir] is a string, the hook of either draft returns, whatever
    [glob.sync], the minifier and the disk do. *)
Theorem hook_returns_with_string_sourceDir
    (transformSync : string → JsObject → Completion Esbuild.TransformResult)
    (minify : string → option JsObject → Completion Terser.MinifyOutput)
    (glob_sync : gmap string Node → option (list string) → string → Completion (list string))
    (process_cwd : Completion string) (cwd : string)
    (esbuildOptions : Esbuild.MinifyStaticOptions)
    (terserOptions : Terser.MinifyStaticOptions)
    (bundleOptions : BundleOptions) (s : State) :
  process_cwd = Returned cwd →
  is_Some (read (Esbuild.sourceDir esbuildOptions)) →
  is_Some (read (Terser.sourceDir terserOptions)) →
  (Esbuild.writeBundle transformSync glob_sync process_cwd esbuildOptions bundleOptions s).1
    = Returned ()
  ∧ (Terser.writeBundle minify glob_sync process_cwd terserOptions bundleOptions s).1
    = Returned ().
Proof.
  intros -> He Ht. split.
  - by apply esbuild_writeBundle_returns.
  - by apply terser_writeBundle_returns.
Qed.

Lemma hook_returns_with_string_sourceDir_witness :
  (Esbuild.writeBundle esbuild_minified glob_fails (Returned "/proj") esbuild_defaults dist
     (start project_disk)).1 = Returned ()
  ∧ (Terser.writeBundle terser_minified glob_fails (Returned "/proj") terser_defaults dist
     (start project_disk)).1 = Returned ().
Proof.
  assert (is_Some (read (Esbuild.sourceDir esbuild_defaults))) as He by (vm_compute; eauto).
  assert (is_Some (read (Terser.sourceDir terser_defaults))) as Ht by (vm_compute; eauto).
  exact (hook_returns_with_string_sourceDir esbuild_minified terser_minified glob_fails
           (Returned "/proj") "/proj" esbuild_defaults terser_defaults dist
           (start project_disk) eq_refl He Ht).
Defined.

(** X8 (of C10).  For a descriptor without a directory path the filter reads the
    path as empty: it answers [false] under [sveltekit] and [true] under any
    other framework.  When [process.cwd()] returns and the resolved
    [sourceDir] is a string, the hook of either draft then returns and
    leaves the disk as it was; under
    [sveltekit] it logs no warning (only the skip line when [verbose] is
    on), under any other framework it logs the warning about the missing
    output directory and nothing else. *)
Theorem hook_without_output_directory
    (transformSync : string → JsObject → Completion Esbuild.TransformResult)
    (minify : string → option JsObject → Completion Terser.MinifyOutput)
    (glob_sync : gmap string Node → option (list string) → string → Completion (list string))
    (process_cwd : string)
    (esbuildOptions : Esbuild.MinifyStaticOptions)
    (terserOptions : Terser.MinifyStaticOptions)
    (bundleOptions : BundleOptions) (s : State) (resolved : Framework) :
  truthy_string (dir bundleOptions) = false →
  read (Esbuild.framework esbuildOptions) = Some resolved →
  read (Terser.framework terserOptions) = Some resolved →
  is_Some (read (Esbuild.sourceDir esbuildOptions)) →
  is_Some (read (Terser.sourceDir terserOptions)) →
  or_string (dir bundleOptions) "" = ""
  ∧ (∀ framework,
       shouldProcessBundle bundleOptions framework
         = negb (String.eqb framework "sveltekit"))
  ∧ (let after :=
       Esbuild.writeBundle transformSync glob_sync (Returned process_cwd)
           esbuildOptions bundleOptions s in
     after.1 = Returned () ∧ fs after.2 = fs s
     ∧ console after.2 =
         console s ++
           (if decide (resolved = sveltekit)
            then (if truthy_bool (read (Esbuild.verbose esbuildOptions))
                  then [(Log, SkippingBundle (dir bundleOptions) "sveltekit")] else [])
            else [(Warn, NoOutputDirectory)]))
  ∧ (let after :=
       Terser.writeBundle minify glob_sync (Returned process_cwd) terserOptions bundleOptions s in
     after.1 = Returned () ∧ fs after.2 = fs s
     ∧ console after.2 =
         console s ++
           (if decide (resolved = sveltekit)
            then (if truthy_bool (read (Terser.verbose terserOptions))
                  then [(Log, SkippingBundle (dir bundleOptions) "sveltekit")] else [])
            else [(Warn, NoOutputDirectory)])).
Proof.
  intros Habsent Hefw Htfw He Ht. split_and!.
  - rewrite or_string_empty. by apply absent_path_is_empty.
  - intros framework. by apply filter_on_absent_path.
  - by apply esbuild_hook_without_directory.
  - by apply terser_hook_without_directory.
Qed.

Lemma hook_without_output_directory_witness :
  console (Esbuild.writeBundle esbuild_minified glob_a_js (Returned "/proj") esbuild_defaults
             no_directory (start project_disk)).2 = [(Warn, NoOutputDirectory)]
  ∧ console (Terser.writeBundle terser_minified glob_a_js (Returned "/proj") terser_defaults
               no_directory (start project_disk)).2 = [(Warn, NoOutputDirectory)].
Proof.
  assert (is_Some (read (Esbuild.sourceDir esbuild_defaults))) as He by (vm_compute; eauto).
  assert (is_Some (read (Terser.sourceDir terser_defaults))) as Ht by (vm_compute; eauto).
  destruct (hook_without_output_directory esbuild_minified terser_minified glob_a_js
              "/proj" esbuild_defaults terser_defaults no_directory (start project_disk)
              vanilla eq_refl eq_refl eq_refl He Ht)
    as (_ & _ & (_ & _ & Hesbuild) & (_ & _ & Hterser)).
  split; [exact Hesbuild | exact Hterser].
Defined.

(* ===================================================================== *)
(** * The theorems above at concrete inputs *)
(* ===================================================================== *)

(** C3 at two descriptors: SvelteKit's client output is processed, and an
    output whose path contains [ssr] is not processed under [vanilla]. *)
Lemma shouldProcessBundle_by_framework_witness :
  shouldProcessBundle {| dir := Some "/proj/.svelte-kit/output/client" |} "sveltekit" = true
  ∧ shouldProcessBundle {| dir := Some "/proj/dist/ssr" |} "vanilla" ≠ true.
Proof.
  split.
  - apply (proj1 (shouldProcessBundle_by_framework
                    {| dir := Some "/proj/.svelte-kit/output/client" |} "sveltekit") eq_refl).
    by exists "/proj/.svelte-kit/output/", "".
  - intros Hprocessed.
    apply (proj2 (shouldProcessBundle_by_framework
                    {| dir := Some "/proj/dist/ssr" |} "vanilla")) in Hprocessed
      as [_ Hssr]; [|done].
    apply Hssr. by exists "/proj/dist/", "".
Defined.




(* ===================================================================== *)
(** * Further properties: [safeUnlink] *)
(* ===================================================================== *)

(** X10.  [safeUnlink] never throws.  For a path that is not there it
    answers [true], for a directory [false].  When it answers [true] the
    path is free afterwards and nothing was printed; when it answers [false]
    the disk is as it was and one warning was printed; and no other path of
    the disk changes. *)
Theorem safeUnlink_frees_path_or_refuses (filePath : string) (s : State) :
  ∃ ok,
    (Terser.safeUnlink filePath s).1 = Returned ok
    ∧ (fs s !! filePath = None → ok = true)
    ∧ (fs s !! filePath = Some Directory → ok = false)
    ∧ (ok = true →
       fs (Terser.safeUnlink filePath s).2 !! filePath = None
       ∧ console (Terser.safeUnlink filePath s).2 = console s)
    ∧ (ok = false →
       fs (Terser.safeUnlink filePath s).2 = fs s
       ∧ ∃ why, console (Terser.safeUnlink filePath s).2 = console s ++ [(Warn, why)])
    ∧ (∀ p, p ≠ filePath → fs (Terser.safeUnlink filePath s).2 !! p = fs s !! p).
Proof.
  unfold Terser.safeUnlink. unfold_run. simpl.
  destruct (fs s !! filePath) as [[content|]|] eqn:Hpath;
    repeat (rewrite ?Hpath; simpl).
  - exists true. split_and!; try done.
    + intros _. by rewrite lookup_delete_eq.
    + intros p Hp. by rewrite lookup_delete_ne.
  - exists false. split_and!; try done. intros _. split; [done|]. by eexists.
  - exists true. split_and!; done.
Qed.

(* ===================================================================== *)
(** * Further properties: one iteration of the loop *)
(* ===================================================================== *)

(** X11.  In both drafts, a listed file that is no longer on the disk is
    skipped: the iteration returns, the disk and both counters are as
    before, and the only console line is a warning that appears when
    [verbose] is on. *)
Theorem missing_source_is_skipped
    (transformSync : string → JsObject → Completion Esbuild.TransformResult)
    (minify : string → option JsObject → Completion Terser.MinifyOutput)
    (esbuildOptions : Esbuild.MinifyStaticOptions)
    (terserOptions : Terser.MinifyStaticOptions)
    (srcDir outDir file : string) (s : State) :
  fs s !! Path.join [srcDir; file] = None →
  Esbuild.minifyFile transformSync esbuildOptions srcDir outDir file s
    = (Returned SkippedMissing,
       {| fs := fs s;
          console :=
            console s ++
              (if truthy_bool (read (Esbuild.verbose esbuildOptions))
               then [(Warn, SourceFileNotFound (Path.join [srcDir; file]))] else []);
          minifiedCount := minifiedCount s;
          totalSavings := totalSavings s |})
  ∧ Terser.minifyFile minify terserOptions srcDir outDir file s
    = (Returned SkippedMissing,
       {| fs := fs s;
          console :=
            console s ++
              (if truthy_bool (read (Terser.verbose terserOptions))
               then [(Warn, SourceFileNotFound (Path.join [srcDir; file]))] else []);
          minifiedCount := minifiedCount s;
          totalSavings := totalSavings s |}).
Proof.
  intros Hgone. split.
  - unfold Esbuild.minifyFile, Esbuild.sourcePath. unfold_run. simpl.
    repeat (rewrite ?Hgone; simpl).
    destruct (truthy_bool _); simpl; [done|]. rewrite app_nil_r. by destruct s.
  - unfold Terser.minifyFile, Terser.sourcePath. unfold_run. simpl.
    repeat (rewrite ?Hgone; simpl).
    destruct (truthy_bool _); simpl; [done|]. rewrite app_nil_r. by destruct s.
Qed.

Lemma missing_source_is_skipped_witness :
  (Terser.minifyFile terser_minified terser_defaults "/proj/public" "/proj/dist" "gone.js"
     (start project_disk)).1 = Returned SkippedMissing
  ∧ (Terser.minifyFile terser_minified terser_defaults "/proj/public" "/proj/dist" "gone.js"
       (start project_disk)).2 = start project_disk.
Proof.
  destruct (missing_source_is_skipped esbuild_minified terser_minified
              esbuild_defaults terser_defaults "/proj/public" "/proj/dist" "gone.js"
              (start project_disk)) as [_ Hterser]; [by vm_compute|].
  rewrite Hterser. split; by vm_compute.
Defined.

(** X12.  What one iteration of the terser draft prints is fixed by how it
    ended: a failure prints exactly one error line that carries the thrown
    value; a skipped empty result prints one warning; a destination that
    could not be replaced prints two warnings; a success and a missing
    source print one line when [verbose] is on and nothing when it is
    off. *)
Theorem terser_console_by_result
    (minify : string → option JsObject → Completion Terser.MinifyOutput)
    (options : Terser.MinifyStaticOptions) (srcDir outDir file : string) (s : State) :
  ∃ r lines,
    (Terser.minifyFile minify options srcDir outDir file s).1 = Returned r
    ∧ console (Terser.minifyFile minify options srcDir outDir file s).2 = console s ++ lines
    ∧ match r with
      | Failed error => lines = [(Error, ErrorMinifying file error)]
      | SkippedEmptyResult => lines = [(Warn, TerserReturnedEmptyResult file)]
      | SkippedNotReplaced =>
          ∃ why, lines = [(Warn, why);
                          (Warn, CouldNotReplace (Terser.outputPath options outDir file))]
      | SkippedMissing =>
          lines = if truthy_bool (read (Terser.verbose options))
                  then [(Warn, SourceFileNotFound (Terser.sourcePath srcDir file))] else []
      | Success original minified =>
          lines = if truthy_bool (read (Terser.verbose options))
                  then [(Log, MinifiedFile file (byteLength original) (byteLength minified))]
                  else []
      end.
Proof.
  unfold Terser.minifyFile, Terser.safeUnlink. unfold_run. simpl.
  split_cases; do 2 eexists; (split; [reflexivity|]); simpl;
    rewrite <- ?app_assoc; simpl;
    first [ split; [reflexivity|]; first [done | by eexists]
          | split; [symmetry; apply app_nil_r|]; done ].
Qed.

(** X13.  The same for the esbuild draft, which can end an iteration in
    three ways only: a success, a missing source, or a failure, and a
    failure prints exactly one error line that carries the thrown value. *)
Theorem esbuild_console_by_result
    (transformSync : string → JsObject → Completion Esbuild.TransformResult)
    (options : Esbuild.MinifyStaticOptions) (srcDir outDir file : string) (s : State) :
  ∃ r lines,
    (Esbuild.minifyFile transformSync options srcDir outDir file s).1 = Returned r
    ∧ console (Esbuild.minifyFile transformSync options srcDir outDir file s).2
        = console s ++ lines
    ∧ match r with
      | Failed error => lines = [(Error, ErrorMinifying file error)]
      | SkippedMissing =>
          lines = if truthy_bool (read (Esbuild.verbose options))
                  then [(Warn, SourceFileNotFound (Esbuild.sourcePath srcDir file))] else []
      | Success original minified =>
          lines = if truthy_bool (read (Esbuild.verbose options))
                  then [(Log, MinifiedFile file (byteLength original) (byteLength minified))]
                  else []
      | SkippedEmptyResult | SkippedNotReplaced => False
      end.
Proof.
  unfold Esbuild.minifyFile, Esbuild.mkDirSync. unfold_run. simpl.
  split_cases; do 2 eexists; (split; [reflexivity|]); simpl;
    rewrite <- ?app_assoc; simpl;
    first [ split; [reflexivity|]; done
          | split; [symmetry; apply app_nil_r|]; done ].
Qed.

Lemma esbuild_success_disk
    (transformSync : string → JsObject → Completion Esbuild.TransformResult)
    (options : Esbuild.MinifyStaticOptions) (srcDir outDir file : string) (s : State)
    (original minified : string) :
  (Esbuild.minifyFile transformSync options srcDir outDir file s).1
    = Returned (Success original minified) →
  fs s !! Esbuild.outputPath options outDir file = None
  ∧ fs s !! Path.dirname (Esbuild.outputPath options outDir file) = Some Directory
  ∧ fs (Esbuild.minifyFile transformSync options srcDir outDir file s).2
      = <[Esbuild.outputPath options outDir file := File minified]> (fs s).
Proof.
  unfold Esbuild.minifyFile, Esbuild.mkDirSync. unfold_run. simpl.
  generalize (Esbuild.outputPath options outDir file) (Esbuild.sourcePath srcDir file).
  intros out src.
  split_cases; intros Hr; simplify_eq;
    try (by match goal with
            | H : delete ?k _ !! ?k = Some _ |- _ => rewrite lookup_delete_eq in H
            end);
    match goal with
    | H : bool_decide (is_Some (fs _ !! out)) = false |- _ =>
        apply bool_decide_eq_false in H
    end;
    split_and!; try done; by apply eq_None_not_Some.
Qed.

(** X14.  The esbuild draft only ever creates files: an iteration that ends
    in success found no entry at the destination and a directory at its
    parent, and the disk afterwards is the disk before with the minified
    text added at the destination.  An existing destination, of any kind, is
    never overwritten. *)
Theorem esbuild_writes_only_new_files
    (transformSync : string → JsObject → Completion Esbuild.TransformResult)
    (options : Esbuild.MinifyStaticOptions) (srcDir outDir file : string) (s : State)
    (original minified : string) :
  (Esbuild.minifyFile transformSync options srcDir outDir file s).1
    = Returned (Success original minified) →
  fs s !! Esbuild.outputPath options outDir file = None
  ∧ fs s !! Path.dirname (Esbuild.outputPath options outDir file) = Some Directory
  ∧ fs (Esbuild.minifyFile transformSync options srcDir outDir file s).2
      = <[Esbuild.outputPath options outDir file := File minified]> (fs s).
Proof. apply esbuild_success_disk. Qed.

(** X16.  With [esBuildOptions: undefined] in the resolved options the
    esbuild draft minifies nothing: for every source file that is on the
    disk the iteration fails on reading [loader] of [undefined], before
    [transformSync] is called, and the disk is unchanged. *)
Theorem esbuild_undefined_bag_fails_every_file
    (transformSync : string → JsObject → Completion Esbuild.TransformResult)
    (options : Esbuild.MinifyStaticOptions) (srcDir outDir file : string) (s : State)
    (original : string) :
  read (Esbuild.esBuildOptions options) = None →
  fs s !! Esbuild.sourcePath srcDir file = Some (File original) →
  Esbuild.minifyFile transformSync options srcDir outDir file s
    = (Returned
         (Failed (TypeError "Cannot read properties of undefined (reading 'loader')")),
       {| fs := fs s;
          console :=
            console s ++
              [(Error,
                ErrorMinifying file
                  (TypeError "Cannot read properties of undefined (reading 'loader')"))];
          minifiedCount := minifiedCount s;
          totalSavings := totalSavings s |}).
Proof.
  intros Hbag Hsrc.
  unfold Esbuild.minifyFile, Esbuild.chooseLoader. unfold_run. simpl.
  repeat (rewrite ?Hsrc, ?Hbag; simpl). done.
Qed.

Lemma esbuild_undefined_bag_fails_every_file_witness :
  (Esbuild.minifyFile esbuild_minified
     (Esbuild.minifyStatic_options no_manifest
        {| Esbuild.sourceDir := Absent; Esbuild.files := Absent;
           Esbuild.esBuildOptions := Present None; Esbuild.verbose := Absent;
           Esbuild.outputDir := Absent; Esbuild.framework := Absent |})
     "/proj/public" "/proj/dist" "a.js" (start project_disk)).1
    = Returned (Failed (TypeError "Cannot read properties of undefined (reading 'loader')")).
Proof.
  rewrite (esbuild_undefined_bag_fails_every_file esbuild_minified _
             "/proj/public" "/proj/dist" "a.js" (start project_disk)
             "var x = 1;   // comment"); by vm_compute.
Defined.

Lemma esbuild_writes_only_new_files_witness :
  fs (Esbuild.minifyFile esbuild_minified esbuild_defaults "/proj/public" "/proj/dist" "a.js"
        (start project_disk)).2
    = <["/proj/dist/a.js" := File "var x=1;"]> project_disk.
Proof.
  apply (esbuild_writes_only_new_files esbuild_minified esbuild_defaults
           "/proj/public" "/proj/dist" "a.js" (start project_disk)
           "var x = 1;   // comment" "var x=1;").
  by vm_compute.
Defined.

(* ===================================================================== *)
(** * Further properties: running an iteration again *)
(* ===================================================================== *)

Section SecondRun.

Variable transformSync : string → JsObject → Completion Esbuild.TransformResult.
Variable minify : string → option JsObject → Completion Terser.MinifyOutput.



End SecondRun.

Section SecondRunEsbuild.

Variable transformSync : string → JsObject → Completion Esbuild.TransformResult.

(** Once the source was read and transformed, an iteration that finds its
    destination already there ends as failed. *)
Lemma esbuild_existing_destination (options : Esbuild.MinifyStaticOptions)
    (srcDir outDir file : string) (s : State) (original : string)
    (loader : JsValue) (result : Esbuild.TransformResult) :
  fs s !! Esbuild.sourcePath srcDir file = Some (File original) →
  Esbuild.chooseLoader options file = Returned loader →
  transformSync original
    (<["loader" := loader]> (default ∅ (read (Esbuild.esBuildOptions options))))
    = Returned result →
  is_Some (fs s !! Esbuild.outputPath options outDir file) →
  ∃ error,
    (Esbuild.minifyFile transformSync options srcDir outDir file s).1
      = Returned (Failed error).
Proof.
  intros Hsrc Hloader Hrun [node Hout].
  unfold Esbuild.minifyFile, Esbuild.mkDirSync. unfold_run. simpl.
  repeat (rewrite ?Hsrc, ?Hloader, ?Hrun, ?Hout; simpl).
  split_cases; try (by eexists);
    first
      [ by match goal with
           | H : delete ?k _ !! ?k = Some _ |- _ => rewrite lookup_delete_eq in H
           end
      | match goal with
        | H : bool_decide (is_Some _) = false |- _ =>
            apply bool_decide_eq_false in H; destruct H; by eexists
        end ].
Qed.

End SecondRunEsbuild.



(** X19.  Running the esbuild draft again never refreshes a file: after an
    iteration that wrote a file, a second iteration for the same file from
    the state the first one left ends as failed, and both counters stay as
    the first one left them. *)
Theorem esbuild_second_run_fails
    (transformSync : string → JsObject → Completion Esbuild.TransformResult)
    (options : Esbuild.MinifyStaticOptions) (srcDir outDir file : string) (s : State)
    (original minified : string) :
  (Esbuild.minifyFile transformSync options srcDir outDir file s).1
    = Returned (Success original minified) →
  ∃ error,
    (Esbuild.minifyFile transformSync options srcDir outDir file
       (Esbuild.minifyFile transformSync options srcDir outDir file s).2).1
      = Returned (Failed error)
    ∧ minifiedCount (Esbuild.minifyFile transformSync options srcDir outDir file
                       (Esbuild.minifyFile transformSync options srcDir outDir file s).2).2
        = minifiedCount (Esbuild.minifyFile transformSync options srcDir outDir file s).2
    ∧ totalSavings (Esbuild.minifyFile transformSync options srcDir outDir file
                      (Esbuild.minifyFile transformSync options srcDir outDir file s).2).2
        = totalSavings (Esbuild.minifyFile transformSync options srcDir outDir file s).2.
Proof.
  intros Hfirst.
  destruct (esbuild_success_written transformSync _ _ _ _ _ _ _ Hfirst)
    as (loader & result & Hsrc & Hloader & Hrun & Hcode & Hout).
  destruct (esbuild_success_disk transformSync _ _ _ _ _ _ _ Hfirst)
    as (Hfree & Hparent & Hdisk).
  assert (Esbuild.sourcePath srcDir file ≠ Esbuild.outputPath options outDir file) as Hdiff
    by (intros Heq; rewrite Heq in Hsrc; congruence).
  destruct (esbuild_existing_destination transformSync options srcDir outDir file
              (Esbuild.minifyFile transformSync options srcDir outDir file s).2
              original loader result) as [error Hsecond]; try done.
  { rewrite Hdisk, lookup_insert_ne; done. }
  exists error. split; [done|].
  destruct (esbuild_minifyFile_counters transformSync options srcDir outDir file
              (Esbuild.minifyFile transformSync options srcDir outDir file s).2)
    as (r & Hr & Hcount & Hsave).
  rewrite Hsecond in Hr. injection Hr as <-. simpl in Hcount, Hsave.
  split; [lia | destruct (truthy_bool _); lia].
Qed.

Lemma esbuild_second_run_fails_witness :
  ∃ error,
    (Esbuild.minifyFile esbuild_minified esbuild_defaults "/proj/public" "/proj/dist" "a.js"
       (Esbuild.minifyFile esbuild_minified esbuild_defaults "/proj/public" "/proj/dist" "a.js"
          (start project_disk)).2).1
      = Returned (Failed error).
Proof.
  destruct (esbuild_second_run_fails esbuild_minified esbuild_defaults
              "/proj/public" "/proj/dist" "a.js" (start project_disk)
              "var x = 1;   // comment" "var x=1;" eq_refl) as (error & Hsecond & _).
  by exists error.
Defined.

(* ===================================================================== *)
(** * Further properties: the whole hook *)
(* ===================================================================== *)

Section HookInvariants.

Variable minify : string → option JsObject → Completion Terser.MinifyOutput.
Variable glob_sync :
  gmap string Node → option (list string) → string → Completion (list string).
Variable process_cwd : Completion string.

(** A property of the disk that the iterations over the listed files keep
    is kept by the loop. *)
Lemma for_of_keeps {A B : Type} (body : A → M B) (P : gmap string Node → Prop)
    (xs : list A) :
  (∀ x s, x ∈ xs → P (fs s) → P (fs (body x s).2)) →
  ∀ s, P (fs s) → P (fs (for_of xs body s).2).
Proof.
  induction xs as [|x rest IH]; intros Hbody s HP; [done|].
  unfold for_of; fold (@for_of A B). unfold mbind, M_bind, mret, M_ret.
  pose proof (Hbody x s (list_elem_of_here _ _) HP) as Hx.
  destruct (body x s) as [[r|e] s']; simpl in *; [|done].
  assert (P (fs (for_of rest body s').2)) as Hrest.
  { apply IH; [|done]. intros y s0 Hy. apply Hbody. by apply list_elem_of_further. }
  by destruct (for_of rest body s') as [[rs|e] s''].
Qed.

(** ... and by the hook, which changes the disk nowhere else: the
    iterations are those over the files that [glob.sync] lists under
    [join(process.cwd(), options.sourceDir)]. *)
Lemma terser_hook_keeps (options : Terser.MinifyStaticOptions)
    (bundleOptions : BundleOptions) (P : gmap string Node → Prop) (s : State) :
  (∀ cwd sourceDir filesToMinify file s',
     process_cwd = Returned cwd →
     read (Terser.sourceDir options) = Some sourceDir →
     glob_sync (fs s) (read (Terser.files options)) (Path.join [cwd; sourceDir])
       = Returned filesToMinify →
     file ∈ filesToMinify →
     P (fs s') →
     P (fs (Terser.minifyFile minify options (Path.join [cwd; sourceDir])
              (default "" (dir bundleOptions)) file s').2)) →
  P (fs s) →
  P (fs (Terser.writeBundle minify glob_sync process_cwd options bundleOptions s).2).
Proof.
  intros Hbody HP. unfold Terser.writeBundle, Terser.minifyFiles, Path.join_checked.
  destruct process_cwd as [cwd|error] eqn:Hcwd;
    destruct (read (Terser.sourceDir options)) as [sourceDir|] eqn:Hdir;
    unfold_run; simpl; split_cases; try done;
    match goal with
    | H : for_of ?xs ?body ?s0 = _ |- _ =>
        pose proof (for_of_keeps body P xs
                      (λ x s', Hbody _ _ _ x s' eq_refl eq_refl ltac:(eassumption))
                      s0 HP) as Hloop;
        by rewrite H in Hloop
    end.
Qed.

End HookInvariants.

(** X20.  The terser draft's hook never removes a directory or turns it into
    a file: a path that is a directory before the hook runs is a directory
    afterwards, whatever files are listed and whatever the minifier
    answers. *)
Theorem terser_hook_keeps_directories
    (minify : string → option JsObject → Completion Terser.MinifyOutput)
    (glob_sync : gmap string Node → option (list string) → string → Completion (list string))
    (process_cwd : Completion string)
    (options : Terser.MinifyStaticOptions)
    (bundleOptions : BundleOptions) (s : State) (p : string) :
  fs s !! p = Some Directory →
  fs (Terser.writeBundle minify glob_sync process_cwd options bundleOptions s).2 !! p
    = Some Directory.
Proof.
  intros Hp.
  apply (terser_hook_keeps minify glob_sync process_cwd options
           bundleOptions (λ disk, disk !! p = Some Directory)); [|done].
  intros cwd sourceDir filesToMinify file s' _ _ _ _ Hs'.
  apply terser_minifyFile_frame; [done | by right].
Qed.

Lemma terser_hook_keeps_directories_witness :
  fs (Terser.writeBundle terser_minified glob_a_js (Returned "/proj") terser_defaults dist
        (start disk_with_directory_destination)).2 !! "/proj/dist/a.js" = Some Directory.
Proof.
  apply (terser_hook_keeps_directories terser_minified glob_a_js (Returned "/proj")
           terser_defaults dist (start disk_with_directory_destination)
           "/proj/dist/a.js").
  by vm_compute.
Defined.



(** X22.  When the bundle filter rejects a build output, the hook of either
    draft does nothing else: it returns, the disk and the counters are as
    before, [process.cwd()], [glob.sync] and the minifier are not consulted,
    and the only console line is the skip line that appears when [verbose]
    is on. *)
Theorem hook_skips_rejected_bundle
    (transformSync : string → JsObject → Completion Esbuild.TransformResult)
    (minify : string → option JsObject → Completion Terser.MinifyOutput)
    (glob_sync : gmap string Node → option (list string) → string → Completion (list string))
    (process_cwd : Completion string)
    (esbuildOptions : Esbuild.MinifyStaticOptions)
    (terserOptions : Terser.MinifyStaticOptions)
    (bundleOptions : BundleOptions) (s : State) (resolved : Framework) :
  read (Esbuild.framework esbuildOptions) = Some resolved →
  read (Terser.framework terserOptions) = Some resolved →
  shouldProcessBundle bundleOptions (framework_name resolved) = false →
  Esbuild.writeBundle transformSync glob_sync process_cwd esbuildOptions bundleOptions s
    = (Returned (),
       {| fs := fs s;
          console :=
            console s ++
              (if truthy_bool (read (Esbuild.verbose esbuildOptions))
               then [(Log, SkippingBundle (dir bundleOptions) (framework_name resolved))]
               else []);
          minifiedCount := minifiedCount s;
          totalSavings := totalSavings s |})
  ∧ Terser.writeBundle minify glob_sync process_cwd terserOptions bundleOptions s
    = (Returned (),
       {| fs := fs s;
          console :=
            console s ++
              (if truthy_bool (read (Terser.verbose terserOptions))
               then [(Log, SkippingBundle (dir bundleOptions) (framework_name resolved))]
               else []);
          minifiedCount := minifiedCount s;
          totalSavings := totalSavings s |}).
Proof.
  intros He Ht Hreject. split.
  - unfold Esbuild.writeBundle. rewrite He. simpl. rewrite Hreject. simpl.
    unfold_run. destruct (truthy_bool _); simpl; [done|].
    rewrite app_nil_r. by destruct s.
  - unfold Terser.writeBundle. rewrite Ht. simpl. rewrite Hreject. simpl.
    unfold_run. destruct (truthy_bool _); simpl; [done|].
    rewrite app_nil_r. by destruct s.
Qed.

Lemma hook_skips_rejected_bundle_witness :
  Terser.writeBundle terser_minified glob_a_js (Returned "/proj") terser_defaults
      {| dir := Some "/proj/dist/ssr" |} (start project_disk)
    = (Returned (), start project_disk).
Proof.
  destruct (hook_skips_rejected_bundle esbuild_minified terser_minified glob_a_js (Returned "/proj")
              esbuild_defaults terser_defaults {| dir := Some "/proj/dist/ssr" |}
              (start project_disk) vanilla eq_refl eq_refl eq_refl) as [_ Hterser].
  exact Hterser.
Defined.

Section HookRuns.

Variable transformSync : string → JsObject → Completion Esbuild.TransformResult.
Variable minify : string → option JsObject → Completion Terser.MinifyOutput.
Variable glob_sync :
  gmap string Node → option (list string) → string → Completion (list string).
Variable process_cwd : string.

Lemma terser_hook_no_files (options : Terser.MinifyStaticOptions)
    (bundleOptions : BundleOptions) (s : State)
    (resolved : Framework) (sourceDir outDir : string)
    (listing : Completion (list string)) :
  read (Terser.framework options) = Some resolved →
  shouldProcessBundle bundleOptions (framework_name resolved) = true →
  read (Terser.sourceDir options) = Some sourceDir →
  dir bundleOptions = Some outDir → outDir ≠ "" →
  glob_sync (fs s) (read (Terser.files options)) (Path.join [process_cwd; sourceDir])
    = listing →
  match listing with
  | Returned (_ :: _) => True
  | _ =>
  Terser.writeBundle minify glob_sync (Returned process_cwd) options bundleOptions s
    = (Returned (),
       {| fs := fs s;
          console :=
            console s ++
              (if truthy_bool (read (Terser.verbose options))
               then [(Log, LookingForStaticFiles (Some sourceDir) (framework_name resolved))]
               else []) ++
              match listing with
              | Thrown error => [(Error, PluginError error)]
              | Returned _ =>
                  if truthy_bool (read (Terser.verbose options))
                  then [(Log, NoStaticFilesFound)] else []
              end;
          minifiedCount := minifiedCount s;
          totalSavings := totalSavings s |})
  end.
Proof.
  intros Hfw Hfilter Hsrc Hdir Hne Hglob.
  assert (String.eqb outDir "" = false) as Hnonempty
    by (by destruct (String.eqb_spec outDir "")).
  destruct s as [disk lines count savings]. simpl in Hglob.
  unfold Terser.writeBundle, Path.join_checked.
  rewrite Hfw, Hsrc, Hdir. simpl. rewrite Hfilter, Hnonempty. simpl.
  destruct listing as [[|file rest]|error]; [|done|]; unfold_run; simpl;
    destruct (truthy_bool (read (Terser.verbose options))); simpl;
    rewrite Hglob; simpl; by rewrite <- ?app_assoc, ?app_nil_r.
Qed.

Lemma esbuild_hook_no_files (options : Esbuild.MinifyStaticOptions)
    (bundleOptions : BundleOptions) (s : State)
    (resolved : Framework) (sourceDir outDir : string)
    (listing : Completion (list string)) :
  read (Esbuild.framework options) = Some resolved →
  shouldProcessBundle bundleOptions (framework_name resolved) = true →
  read (Esbuild.sourceDir options) = Some sourceDir →
  dir bundleOptions = Some outDir → outDir ≠ "" →
  glob_sync (fs s) (read (Esbuild.files options)) (Path.join [process_cwd; sourceDir])
    = listing →
  match listing with
  | Returned (_ :: _) => True
  | _ =>
  Esbuild.writeBundle transformSync glob_sync (Returned process_cwd) options bundleOptions s
    = (Returned (),
       {| fs := fs s;
          console :=
            console s ++
              (if truthy_bool (read (Esbuild.verbose options))
               then [(Log, LookingForStaticFiles (Some sourceDir) (framework_name resolved))]
               else []) ++
              match listing with
              | Thrown error => [(Error, PluginError error)]
              | Returned _ =>
                  if truthy_bool (read (Esbuild.verbose options))
                  then [(Log, NoStaticFilesFound)] else []
              end;
          minifiedCount := minifiedCount s;
          totalSavings := totalSavings s |})
  end.
Proof.
  intros Hfw Hfilter Hsrc Hdir Hne Hglob.
  assert (String.eqb outDir "" = false) as Hnonempty
    by (by destruct (String.eqb_spec outDir "")).
  destruct s as [disk lines count savings]. simpl in Hglob.
  unfold Esbuild.writeBundle, Path.join_checked.
  rewrite Hfw, Hsrc, Hdir. simpl. rewrite Hfilter, Hnonempty. simpl.
  destruct listing as [[|file rest]|error]; [|done|]; unfold_run; simpl;
    destruct (truthy_bool (read (Esbuild.verbose options))); simpl;
    rewrite Hglob; simpl; by rewrite <- ?app_assoc, ?app_nil_r.
Qed.

(** X25.  The summary of the terser draft's hook.  When the filter accepts
    the build output and [glob.sync] lists at least one file, the hook runs
    the loop from counters set to zero, whatever they were, and returns; the
    summary line is printed exactly when at least one file was written, it
    carries the number of files written, and it carries the bytes saved only
    when [verbose] is on and that total is positive. *)
Theorem terser_hook_summary (options : Terser.MinifyStaticOptions)
    (bundleOptions : BundleOptions) (s : State)
    (resolved : Framework) (sourceDir outDir : string) (filesToMinify : list string) :
  read (Terser.framework options) = Some resolved →
  shouldProcessBundle bundleOptions (framework_name resolved) = true →
  read (Terser.sourceDir options) = Some sourceDir →
  dir bundleOptions = Some outDir → outDir ≠ "" →
  glob_sync (fs s) (read (Terser.files options)) (Path.join [process_cwd; sourceDir])
    = Returned filesToMinify →
  filesToMinify ≠ [] →
  let verbose := truthy_bool (read (Terser.verbose options)) in
  let run :=
    Terser.minifyFiles minify options (Path.join [process_cwd; sourceDir]) outDir
      filesToMinify
      {| fs := fs s;
         console :=
           console s ++
             (if verbose
              then [(Log, LookingForStaticFiles (Some sourceDir) (framework_name resolved))]
              else []);
         minifiedCount := 0; totalSavings := 0 |} in
  ∃ results,
    run.1 = Returned results
    ∧ length results = length filesToMinify
    ∧ Terser.writeBundle minify glob_sync (Returned process_cwd) options bundleOptions s
      = (Returned (),
         {| fs := fs run.2;
            console :=
              console run.2 ++
                (if bool_decide (0 < files_transformed results)%nat
                 then [(Log,
                        MinifiedSummary (files_transformed results)
                          (if verbose && bool_decide (0 < total_bytes_saved results)
                           then Some (total_bytes_saved results) else None))]
                 else []);
            minifiedCount := files_transformed results;
            totalSavings := if verbose then total_bytes_saved results else 0 |}).
Proof.
  intros Hfw Hfilter Hsrc Hdir Hne Hglob Hfiles verbose run.
  assert (String.eqb outDir "" = false) as Hnonempty
    by (by destruct (String.eqb_spec outDir "")).
  destruct (for_of_summary (Terser.minifyFile minify options
                              (Path.join [process_cwd; sourceDir]) outDir)
              verbose (λ file s', terser_minifyFile_counters minify options _ _ file s')
              filesToMinify
              {| fs := fs s;
                 console :=
                   console s ++
                     (if verbose
                      then [(Log, LookingForStaticFiles (Some sourceDir)
                                    (framework_name resolved))]
                      else []);
                 minifiedCount := 0; totalSavings := 0 |})
    as (results & Hr & Hlen & Hcount & Hsave).
  fold (Terser.minifyFiles minify options (Path.join [process_cwd; sourceDir]) outDir
          filesToMinify) in Hr, Hcount, Hsave.
  fold run in Hr, Hcount, Hsave.
  exists results. split; [done|]. split; [done|].
  revert Hr Hcount Hsave. subst run. 
  destruct s as [disk lines count savings]. simpl in Hglob.
  unfold Terser.writeBundle, Path.join_checked.
  rewrite Hfw, Hsrc, Hdir. simpl. rewrite Hfilter, Hnonempty. simpl.
  destruct filesToMinify as [|file rest]; [done|].
  unfold_run. simpl. subst verbose.
  destruct (truthy_bool (read (Terser.verbose options))); simpl;
    rewrite ?app_nil_r, Hglob; simpl;
    destruct (Terser.minifyFiles _ _ _ _ _ _) as [c s1]; simpl;
    intros -> Hcount Hsave; destruct s1 as [disk1 lines1 count1 savings1];
    simpl in *; subst count1 savings1;
    case_bool_decide; simpl; by rewrite ?app_nil_r.
Qed.

(** X26.  The summary of the esbuild draft's hook: as for the terser draft,
    the loop runs from counters set to zero, the summary line is printed
    exactly when at least one file was written, carries their number, and
    carries the bytes saved only when [verbose] is on and the total is
    positive. *)
Theorem esbuild_hook_summary (options : Esbuild.MinifyStaticOptions)
    (bundleOptions : BundleOptions) (s : State)
    (resolved : Framework) (sourceDir outDir : string) (filesToMinify : list string) :
  read (Esbuild.framework options) = Some resolved →
  shouldProcessBundle bundleOptions (framework_name resolved) = true →
  read (Esbuild.sourceDir options) = Some sourceDir →
  dir bundleOptions = Some outDir → outDir ≠ "" →
  glob_sync (fs s) (read (Esbuild.files options)) (Path.join [process_cwd; sourceDir])
    = Returned filesToMinify →
  filesToMinify ≠ [] →
  let verbose := truthy_bool (read (Esbuild.verbose options)) in
  let run :=
    Esbuild.minifyFiles transformSync options (Path.join [process_cwd; sourceDir]) outDir
      filesToMinify
      {| fs := fs s;
         console :=
           console s ++
             (if verbose
              then [(Log, LookingForStaticFiles (Some sourceDir) (framework_name resolved))]
              else []);
         minifiedCount := 0; totalSavings := 0 |} in
  ∃ results,
    run.1 = Returned results
    ∧ length results = length filesToMinify
    ∧ Esbuild.writeBundle transformSync glob_sync (Returned process_cwd) options bundleOptions s
      = (Returned (),
         {| fs := fs run.2;
            console :=
              console run.2 ++
                (if bool_decide (0 < files_transformed results)%nat
                 then [(Log,
                        MinifiedSummary (files_transformed results)
                          (if verbose && bool_decide (0 < total_bytes_saved results)
                           then Some (total_bytes_saved results) else None))]
                 else []);
            minifiedCount := files_transformed results;
            totalSavings := if verbose then total_bytes_saved results else 0 |}).
Proof.
  intros Hfw Hfilter Hsrc Hdir Hne Hglob Hfiles verbose run.
  assert (String.eqb outDir "" = false) as Hnonempty
    by (by destruct (String.eqb_spec outDir "")).
  destruct (for_of_summary (Esbuild.minifyFile transformSync options
                              (Path.join [process_cwd; sourceDir]) outDir)
              verbose (λ file s', esbuild_minifyFile_counters transformSync options _ _ file s')
              filesToMinify
              {| fs := fs s;
                 console :=
                   console s ++
                     (if verbose
                      then [(Log, LookingForStaticFiles (Some sourceDir)
                                    (framework_name resolved))]
                      else []);
                 minifiedCount := 0; totalSavings := 0 |})
    as (results & Hr & Hlen & Hcount & Hsave).
  fold (Esbuild.minifyFiles transformSync options (Path.join [process_cwd; sourceDir]) outDir
          filesToMinify) in Hr, Hcount, Hsave.
  fold run in Hr, Hcount, Hsave.
  exists results. split; [done|]. split; [done|].
  revert Hr Hcount Hsave. subst run. 
  destruct s as [disk lines count savings]. simpl in Hglob.
  unfold Esbuild.writeBundle, Path.join_checked.
  rewrite Hfw, Hsrc, Hdir. simpl. rewrite Hfilter, Hnonempty. simpl.
  destruct filesToMinify as [|file rest]; [done|].
  unfold_run. simpl. subst verbose.
  destruct (truthy_bool (read (Esbuild.verbose options))); simpl;
    rewrite ?app_nil_r, Hglob; simpl;
    destruct (Esbuild.minifyFiles _ _ _ _ _ _) as [c s1]; simpl;
    intros -> Hcount Hsave; destruct s1 as [disk1 lines1 count1 savings1];
    simpl in *; subst count1 savings1;
    case_bool_decide; simpl; by rewrite ?app_nil_r.
Qed.

End HookRuns.

Section Resolved.

Lemma esbuild_resolved_sourceDir (packageJson : Completion PackageJson)
    (userOptions : Esbuild.MinifyStaticOptions) :
  read (Esbuild.sourceDir (Esbuild.minifyStatic_options packageJson userOptions))
    = match Esbuild.sourceDir userOptions with
      | Absent =>
          Some (getDefaultSourceDir
                  (framework_name (Esbuild.detectedFramework packageJson userOptions)))
      | Present given => given
      end.
Proof. by destruct userOptions as [[|[given|]] ? ? ? ? ?]. Qed.

Lemma terser_resolved_sourceDir (packageJson : Completion PackageJson)
    (userOptions : Terser.MinifyStaticOptions) :
  read (Terser.sourceDir (Terser.minifyStatic_options packageJson userOptions))
    = match Terser.sourceDir userOptions with
      | Absent =>
          Some (getDefaultSourceDir
                  (framework_name (Terser.detectedFramework packageJson userOptions)))
      | Present given => given
      end.
Proof. by destruct userOptions as [[|[given|]] ? ? ? ? ?]. Qed.

End Resolved.

(** X27.  When the hook of the plugin that [minifyStatic] returns throws.
    In both drafts the hook throws exactly when the bundle filter accepts
    the build output and either [process.cwd()] throws or the user options
    hold the key [sourceDir] with the value [undefined]; for every other
    configuration and every build output it returns, whatever [glob.sync],
    the minifier and the disk do. *)
Theorem plugin_hook_throws_exactly_when
    (transformSync : string → JsObject → Completion Esbuild.TransformResult)
    (minify : string → option JsObject → Completion Terser.MinifyOutput)
    (glob_sync : gmap string Node → option (list string) → string → Completion (list string))
    (process_cwd : Completion string) (packageJson : Completion PackageJson)
    (esbuildUser : Esbuild.MinifyStaticOptions) (terserUser : Terser.MinifyStaticOptions)
    (bundleOptions : BundleOptions) (s : State) :
  ((∃ error,
      (Esbuild.plugin_writeBundle
         (Esbuild.minifyStatic transformSync glob_sync process_cwd packageJson esbuildUser)
         bundleOptions s).1 = Thrown error)
   ↔ shouldProcessBundle bundleOptions
       (framework_name (Esbuild.detectedFramework packageJson esbuildUser)) = true
     ∧ ((∃ error, process_cwd = Thrown error)
        ∨ Esbuild.sourceDir esbuildUser = Present None))
  ∧ ((∃ error,
        (Terser.plugin_writeBundle
           (Terser.minifyStatic minify glob_sync process_cwd packageJson terserUser)
           bundleOptions s).1 = Thrown error)
     ↔ shouldProcessBundle bundleOptions
         (framework_name (Terser.detectedFramework packageJson terserUser)) = true
       ∧ ((∃ error, process_cwd = Thrown error)
          ∨ Terser.sourceDir terserUser = Present None)).
Proof.
  split.
  - unfold Esbuild.minifyStatic. simpl.
    pose proof (esbuild_resolved_sourceDir packageJson esbuildUser) as Hdir.
    destruct process_cwd as [cwd|thrown].
    + destruct (Esbuild.sourceDir esbuildUser) as [|[given|]] eqn:Huser.
      * split; [|by intros [_ [[? ?]|?]]]. intros [error Hthrown].
        rewrite esbuild_writeBundle_returns in Hthrown; [done | rewrite Hdir; eauto].
      * split; [|by intros [_ [[? ?]|?]]]. intros [error Hthrown].
        rewrite esbuild_writeBundle_returns in Hthrown; [done | rewrite Hdir; eauto].
      * unfold Esbuild.writeBundle, Path.join_checked. rewrite Hdir. simpl.
        destruct (shouldProcessBundle _ _); simpl.
        -- split; [by intros _; split; [|right]|]. intros _. eexists. reflexivity.
        -- split; [|by intros [? _]]. intros [error Hthrown]. revert Hthrown.
           unfold_run. by destruct (truthy_bool _).
    + unfold Esbuild.writeBundle. simpl.
      destruct (shouldProcessBundle _ _); simpl.
      * split; [intros _; split; [done|left; by eexists]|]. intros _. eexists. reflexivity.
      * split; [|by intros [? _]]. intros [error Hthrown]. revert Hthrown.
        unfold_run. by destruct (truthy_bool _).
  - unfold Terser.minifyStatic. simpl.
    pose proof (terser_resolved_sourceDir packageJson terserUser) as Hdir.
    destruct process_cwd as [cwd|thrown].
    + destruct (Terser.sourceDir terserUser) as [|[given|]] eqn:Huser.
      * split; [|by intros [_ [[? ?]|?]]]. intros [error Hthrown].
        rewrite terser_writeBundle_returns in Hthrown; [done | rewrite Hdir; eauto].
      * split; [|by intros [_ [[? ?]|?]]]. intros [error Hthrown].
        rewrite terser_writeBundle_returns in Hthrown; [done | rewrite Hdir; eauto].
      * unfold Terser.writeBundle, Path.join_checked. rewrite Hdir. simpl.
        destruct (shouldProcessBundle _ _); simpl.
        -- split; [by intros _; split; [|right]|]. intros _. eexists. reflexivity.
        -- split; [|by intros [? _]]. intros [error Hthrown]. revert Hthrown.
           unfold_run. by destruct (truthy_bool _).
    + unfold Terser.writeBundle. simpl.
      destruct (shouldProcessBundle _ _); simpl.
      * split; [intros _; split; [done|left; by eexists]|]. intros _. eexists. reflexivity.
      * split; [|by intros [? _]]. intros [error Hthrown]. revert Hthrown.
        unfold_run. by destruct (truthy_bool _).
Qed.

Lemma terser_hook_summary_witness :
  console (Terser.writeBundle terser_minified glob_a_js (Returned "/proj") terser_defaults dist
             (start disk_with_old_destination)).2 = [(Log, MinifiedSummary 1 None)].
Proof.
  assert ("/proj/dist" ≠ "") as Hdist by done.
  assert (["a.js"] ≠ ([] : list string)) as Hlisted by done.
  destruct (terser_hook_summary terser_minified glob_a_js "/proj" terser_defaults dist
              (start disk_with_old_destination) vanilla "public" "/proj/dist" ["a.js"]
              eq_refl eq_refl eq_refl eq_refl Hdist eq_refl Hlisted)
    as (results & Hrun & _ & Hhook).
  vm_compute in Hrun. injection Hrun as <-. rewrite Hhook. by vm_compute.
Defined.

Lemma esbuild_hook_summary_witness :
  console (Esbuild.writeBundle esbuild_minified glob_a_js (Returned "/proj") esbuild_defaults dist
             (start project_disk)).2 = [(Log, MinifiedSummary 1 None)].
Proof.
  assert ("/proj/dist" ≠ "") as Hdist by done.
  assert (["a.js"] ≠ ([] : list string)) as Hlisted by done.
  destruct (esbuild_hook_summary esbuild_minified glob_a_js "/proj" esbuild_defaults dist
              (start project_disk) vanilla "public" "/proj/dist" ["a.js"]
              eq_refl eq_refl eq_refl eq_refl Hdist eq_refl Hlisted)
    as (results & Hrun & _ & Hhook).
  vm_compute in Hrun. injection Hrun as <-. rewrite Hhook. by vm_compute.
Defined.


(** X23.  When [glob.sync] lists no file, the hook of either draft returns
    with the disk and the counters as they were; it prints the line about
    the search and the line about finding nothing only when [verbose] is
    on. *)
Theorem hook_with_empty_listing
    (transformSync : string → JsObject → Completion Esbuild.TransformResult)
    (minify : string → option JsObject → Completion Terser.MinifyOutput)
    (glob_sync : gmap string Node → option (list string) → string → Completion (list string))
    (process_cwd : string)
    (esbuildOptions : Esbuild.MinifyStaticOptions)
    (terserOptions : Terser.MinifyStaticOptions)
    (bundleOptions : BundleOptions) (s : State)
    (resolved : Framework) (sourceDir outDir : string) :
  read (Esbuild.framework esbuildOptions) = Some resolved →
  read (Terser.framework terserOptions) = Some resolved →
  shouldProcessBundle bundleOptions (framework_name resolved) = true →
  read (Esbuild.sourceDir esbuildOptions) = Some sourceDir →
  read (Terser.sourceDir terserOptions) = Some sourceDir →
  dir bundleOptions = Some outDir → outDir ≠ "" →
  glob_sync (fs s) (read (Esbuild.files esbuildOptions)) (Path.join [process_cwd; sourceDir])
    = Returned [] →
  glob_sync (fs s) (read (Terser.files terserOptions)) (Path.join [process_cwd; sourceDir])
    = Returned [] →
  Esbuild.writeBundle transformSync glob_sync (Returned process_cwd) esbuildOptions bundleOptions s
    = (Returned (),
       {| fs := fs s;
          console :=
            console s ++
              (if truthy_bool (read (Esbuild.verbose esbuildOptions))
               then [(Log, LookingForStaticFiles (Some sourceDir) (framework_name resolved));
                     (Log, NoStaticFilesFound)]
               else []);
          minifiedCount := minifiedCount s;
          totalSavings := totalSavings s |})
  ∧ Terser.writeBundle minify glob_sync (Returned process_cwd) terserOptions bundleOptions s
    = (Returned (),
       {| fs := fs s;
          console :=
            console s ++
              (if truthy_bool (read (Terser.verbose terserOptions))
               then [(Log, LookingForStaticFiles (Some sourceDir) (framework_name resolved));
                     (Log, NoStaticFilesFound)]
               else []);
          minifiedCount := minifiedCount s;
          totalSavings := totalSavings s |}).
Proof.
  intros He Ht Hfilter Hesrc Htsrc Hdir Hne Heglob Htglob. split.
  - rewrite (esbuild_hook_no_files transformSync glob_sync process_cwd esbuildOptions
               bundleOptions s resolved sourceDir outDir (Returned [])
               He Hfilter Hesrc Hdir Hne Heglob).
    by destruct (truthy_bool _).
  - rewrite (terser_hook_no_files minify glob_sync process_cwd terserOptions
               bundleOptions s resolved sourceDir outDir (Returned [])
               Ht Hfilter Htsrc Hdir Hne Htglob).
    by destruct (truthy_bool _).
Qed.

Lemma hook_with_empty_listing_witness :
  Terser.writeBundle terser_minified glob_nothing (Returned "/proj") terser_defaults dist
      (start project_disk)
    = (Returned (), start project_disk).
Proof.
  assert ("/proj/dist" ≠ "") as Hdist by done.
  destruct (hook_with_empty_listing esbuild_minified terser_minified glob_nothing "/proj"
              esbuild_defaults terser_defaults dist (start project_disk)
              vanilla "public" "/proj/dist"
              eq_refl eq_refl eq_refl eq_refl eq_refl eq_refl Hdist eq_refl eq_refl)
    as [_ Hterser].
  exact Hterser.
Defined.

(** X24.  When [glob.sync] throws, the hook of either draft catches it: the
    hook returns, the disk and the counters are as they were, and an error
    line that carries the thrown value is printed whether or not [verbose]
    is on. *)
Theorem hook_reports_listing_failure
    (transformSync : string → JsObject → Completion Esbuild.TransformResult)
    (minify : string → option JsObject → Completion Terser.MinifyOutput)
    (glob_sync : gmap string Node → option (list string) → string → Completion (list string))
    (process_cwd : string)
    (esbuildOptions : Esbuild.MinifyStaticOptions)
    (terserOptions : Terser.MinifyStaticOptions)
    (bundleOptions : BundleOptions) (s : State)
    (resolved : Framework) (sourceDir outDir : string) (error : Exn) :
  read (Esbuild.framework esbuildOptions) = Some resolved →
  read (Terser.framework terserOptions) = Some resolved →
  shouldProcessBundle bundleOptions (framework_name resolved) = true →
  read (Esbuild.sourceDir esbuildOptions) = Some sourceDir →
  read (Terser.sourceDir terserOptions) = Some sourceDir →
  dir bundleOptions = Some outDir → outDir ≠ "" →
  glob_sync (fs s) (read (Esbuild.files esbuildOptions)) (Path.join [process_cwd; sourceDir])
    = Thrown error →
  glob_sync (fs s) (read (Terser.files terserOptions)) (Path.join [process_cwd; sourceDir])
    = Thrown error →
  Esbuild.writeBundle transformSync glob_sync (Returned process_cwd) esbuildOptions bundleOptions s
    = (Returned (),
       {| fs := fs s;
          console :=
            console s ++
              (if truthy_bool (read (Esbuild.verbose esbuildOptions))
               then [(Log, LookingForStaticFiles (Some sourceDir) (framework_name resolved))]
               else []) ++ [(Error, PluginError error)];
          minifiedCount := minifiedCount s;
          totalSavings := totalSavings s |})
  ∧ Terser.writeBundle minify glob_sync (Returned process_cwd) terserOptions bundleOptions s
    = (Returned (),
       {| fs := fs s;
          console :=
            console s ++
              (if truthy_bool (read (Terser.verbose terserOptions))
               then [(Log, LookingForStaticFiles (Some sourceDir) (framework_name resolved))]
               else []) ++ [(Error, PluginError error)];
          minifiedCount := minifiedCount s;
          totalSavings := totalSavings s |}).
Proof.
  intros He Ht Hfilter Hesrc Htsrc Hdir Hne Heglob Htglob. split.
  - by rewrite (esbuild_hook_no_files transformSync glob_sync process_cwd esbuildOptions
                  bundleOptions s resolved sourceDir outDir (Thrown error)
                  He Hfilter Hesrc Hdir Hne Heglob).
  - by rewrite (terser_hook_no_files minify glob_sync process_cwd terserOptions
                  bundleOptions s resolved sourceDir outDir (Thrown error)
                  Ht Hfilter Htsrc Hdir Hne Htglob).
Qed.

Lemma hook_reports_listing_failure_witness :
  console (Terser.writeBundle terser_minified glob_fails (Returned "/proj") terser_defaults dist
             (start project_disk)).2 = [(Error, PluginError (ENOENT "/proj/public"))].
Proof.
  assert ("/proj/dist" ≠ "") as Hdist by done.
  destruct (hook_reports_listing_failure esbuild_minified terser_minified glob_fails "/proj"
              esbuild_defaults terser_defaults dist (start project_disk)
              vanilla "public" "/proj/dist" (ENOENT "/proj/public")
              eq_refl eq_refl eq_refl eq_refl eq_refl eq_refl Hdist eq_refl eq_refl)
    as [_ Hterser].
  by rewrite Hterser.
Defined.

(** X28.  The esbuild draft never hands [transformSync] a falsy loader:
    whenever the loader is chosen at all (the option bag is an object), it
    is truthy, and for the extensions [.ts], [.jsx] and [.tsx], in any
    letter case, it is the loader of that name whatever loader the options
    name. *)
Theorem esbuild_loader_is_truthy
    (options : Esbuild.MinifyStaticOptions) (file : string) (loader : JsValue) :
  Esbuild.chooseLoader options file = Returned loader →
  truthy loader = true
  ∧ (toLowerCase (Path.extname file) = ".ts" → loader = JString "ts")
  ∧ (toLowerCase (Path.extname file) = ".jsx" → loader = JString "jsx")
  ∧ (toLowerCase (Path.extname file) = ".tsx" → loader = JString "tsx").
Proof.
  unfold Esbuild.chooseLoader, Esbuild.or_js.
  destruct (read (Esbuild.esBuildOptions options)) as [bag|]; [|done].
  intros [= <-].
  destruct (String.eqb_spec (toLowerCase (Path.extname file)) ".ts") as [->|];
    [by repeat split|].
  destruct (String.eqb_spec (toLowerCase (Path.extname file)) ".jsx") as [->|];
    [by repeat split|].
  destruct (String.eqb_spec (toLowerCase (Path.extname file)) ".tsx") as [->|];
    [by repeat split|].
  split; [|done]. by destruct (truthy (js_get bag "loader")) eqn:Hloader.
Qed.

Lemma esbuild_loader_is_truthy_witness :
  Esbuild.chooseLoader esbuild_defaults "widgets/App.TSX" = Returned (JString "tsx").
Proof.
  destruct (Esbuild.chooseLoader esbuild_defaults "widgets/App.TSX") as [loader|error] eqn:Hl;
    [|by vm_compute in Hl].
  destruct (esbuild_loader_is_truthy esbuild_defaults "widgets/App.TSX" loader Hl)
    as (_ & _ & _ & Htsx).
  by rewrite Htsx.
Defined.
